(** * CoAct: plan / execute / check / replan control loop

    A shallow embedding of the Python sources of the repository
    (test_plan.py, agent/agent.py, agent/prompts/prompt_constructor.py,
    evaluation_harness/evaluators.py) together with the properties of the
    specification that were checked against them.

    Conventions
    - Python [str] values are modelled by [string]; one [ascii] stands for one
      code point below 256 (the Latin-1 range).
    - Python [int] values are modelled by [Z].
    - Scores are the floats 0.0 and 1.0 and products of them; they are
      modelled by [Q], on which such products are exact.
    - A Python call that may raise returns a [result]. *)

From Stdlib Require Import ZArith QArith List String Ascii Bool Lia.
From Stdlib Require Import DecimalString Lqa.
Import ListNotations.

Local Open Scope list_scope.
Local Open Scope string_scope.

(** ** Exceptions and results *)

Inductive exn : Type :=
| KeyError
| IndexError
| ValueError
| TypeError
| AssertionError
| UnboundLocalError
| ActionParsingError.

Inductive result (A : Type) : Type :=
| Ok (a : A)
| Raise (e : exn).

Arguments Ok {A} a.
Arguments Raise {A} e.

Definition bind {A B : Type} (r : result A) (f : A -> result B) : result B :=
  match r with
  | Ok a => f a
  | Raise e => Raise e
  end.

Notation "x <- r ;; k" := (bind r (fun x => k))
  (at level 61, r at next level, right associativity).

(** [[f(x) for x in l]] where [f] may raise: the comprehension is evaluated
    eagerly, left to right, and the first exception aborts it. *)
Fixpoint mapM {A B : Type} (f : A -> result B) (l : list A) : result (list B) :=
  match l with
  | [] => Ok []
  | x :: r => y <- f x ;; ys <- mapM f r ;; Ok (y :: ys)
  end.

(** ** Python string operations *)

Module PyStr.

Definition squote : ascii := "'"%char.
Definition dquote : ascii := "034"%char.
Definition newline : ascii := "010"%char.

Definition str1 (c : ascii) : string := String c EmptyString.

(** [s.startswith(p)] *)
Definition startswith (s p : string) : bool := String.prefix p s.

(** [s[n:]] *)
Fixpoint drop (n : nat) (s : string) : string :=
  match n, s with
  | O, _ => s
  | S n', String _ r => drop n' r
  | S _, EmptyString => EmptyString
  end.

(** [s.endswith(p)] *)
Definition endswith (s p : string) : bool :=
  (String.length p <=? String.length s)%nat
  && String.eqb (drop (String.length s - String.length p) s) p.

(** [s[:-1]] *)
Fixpoint drop_last (s : string) : string :=
  match s with
  | EmptyString => EmptyString
  | String c r =>
      match r with
      | EmptyString => EmptyString
      | String _ _ => String c (drop_last r)
      end
  end.

(** [s[1:-1]] *)
Definition slice_1_m1 (s : string) : string :=
  match s with
  | EmptyString => EmptyString
  | String _ r => drop_last r
  end.

(** [c.lower()] on the code points below 256: the letters A-Z and the
    Latin-1 capitals 0xC0-0xDE (the multiplication sign 0xD7 apart) move up
    by 32, every other code point is unchanged. *)
Definition lower_char (c : ascii) : ascii :=
  let n := nat_of_ascii c in
  if ((65 <=? n) && (n <=? 90))%nat then ascii_of_nat (n + 32)
  else if ((192 <=? n) && (n <=? 222) && negb (n =? 215))%nat
       then ascii_of_nat (n + 32)
  else c.

(** [s.lower()] *)
Fixpoint lower (s : string) : string :=
  match s with
  | EmptyString => EmptyString
  | String c r => String (lower_char c) (lower r)
  end.

(** [c.isspace()] on the code points below 256; it is also the class [\s]
    of [re] on [str] patterns. *)
Definition isspace (c : ascii) : bool :=
  let n := nat_of_ascii c in
  ((9 <=? n) && (n <=? 13) || (28 <=? n) && (n <=? 32)
   || (n =? 133) || (n =? 160))%nat.

(** [s.lstrip()] *)
Fixpoint lstrip (s : string) : string :=
  match s with
  | EmptyString => EmptyString
  | String c r => if isspace c then lstrip r else s
  end.

(** [s.rstrip()] *)
Fixpoint rstrip (s : string) : string :=
  match s with
  | EmptyString => EmptyString
  | String c r =>
      match rstrip r with
      | EmptyString => if isspace c then EmptyString else str1 c
      | r' => String c r'
      end
  end.

(** [s.strip()] *)
Definition strip (s : string) : string := rstrip (lstrip s).

(** [p in s] *)
Fixpoint occurs (p s : string) : bool :=
  String.prefix p s
  || match s with
     | EmptyString => false
     | String _ r => occurs p r
     end.

(** [s.replace(old, new)] for a non-empty [old]: the occurrences of [old]
    are replaced from left to right, without overlap.  [skip] counts the
    characters of the occurrence being replaced that are still to be
    dropped. *)
Fixpoint replace_from (skip : nat) (old new s : string) : string :=
  match skip with
  | S k =>
      match s with
      | EmptyString => EmptyString
      | String _ r => replace_from k old new r
      end
  | O =>
      match s with
      | EmptyString => EmptyString
      | String c r =>
          if String.prefix old s
          then new ++ replace_from (String.length old - 1) old new r
          else String c (replace_from 0 old new r)
      end
  end.

Definition replace (s old new : string) : string :=
  replace_from 0 old new s.

(** [f"{n}"] for an [int] *)
Definition str_of_int (n : Z) : string :=
  NilZero.string_of_int (Z.to_int n).

End PyStr.

(** ** The browser environment's data (browser_env)

    The package browser_env is imported by the sources but is not part of
    them; its data types are modelled from the specification's data model. *)

Module BrowserEnv.

(** Modelled from the spec: the enumeration browser_env.ActionTypes, which is
    missing from the sources.  The specification lists the variants click,
    type, hover, press-key, scroll, new-tab, switch-tab, close-tab,
    navigate-url, go-back, go-forward, stop and none; the sources name
    [ActionTypes.NONE], [ActionTypes.TYPE] and [ActionTypes.STOP]. *)
Inductive ActionTypes : Type :=
| NONE | CLICK | TYPE | HOVER | KEY_PRESS | SCROLL | NEW_TAB | PAGE_FOCUS
| PAGE_CLOSE | GOTO_URL | GO_BACK | GO_FORWARD | STOP.

Definition ActionTypes_eqb (a b : ActionTypes) : bool :=
  match a, b with
  | NONE, NONE | CLICK, CLICK | TYPE, TYPE | HOVER, HOVER
  | KEY_PRESS, KEY_PRESS | SCROLL, SCROLL | NEW_TAB, NEW_TAB
  | PAGE_FOCUS, PAGE_FOCUS | PAGE_CLOSE, PAGE_CLOSE | GOTO_URL, GOTO_URL
  | GO_BACK, GO_BACK | GO_FORWARD, GO_FORWARD | STOP, STOP => true
  | _, _ => false
  end.

(** Modelled from the spec: the dictionary browser_env.Action, which is
    missing from the sources: the variant tag, the action-specific
    parameters (element id, text content, key combination, direction, url,
    answer) and the raw text the model produced. *)
Record Action : Type := mkAction {
  action_type : ActionTypes;
  element_id : string;
  text : string;
  key_comb : string;
  direction : string;
  url : string;
  answer : string;
  raw_prediction : string
}.

Definition set_raw_prediction (a : Action) (raw : string) : Action :=
  mkAction (action_type a) (element_id a) (text a) (key_comb a)
           (direction a) (url a) (answer a) raw.

(** Modelled from the spec: browser_env.create_none_action, missing from the
    sources: the sentinel for unparseable model output. *)
Definition create_none_action : Action :=
  mkAction NONE EmptyString EmptyString EmptyString EmptyString EmptyString EmptyString EmptyString.

(** Modelled from the spec: browser_env.create_stop_action, missing from the
    sources: a STOP action carrying an answer payload. *)
Definition create_stop_action (ans : string) : Action :=
  mkAction STOP EmptyString EmptyString EmptyString EmptyString EmptyString ans EmptyString.

(** A page observation with its metadata: the dictionary
    [{"observation": obs, "info": info}] built by the driver. *)
Record StateInfo : Type := mkStateInfo {
  observation : string;
  page_url : string
}.

(** An element of a trajectory, [Union[Action, StateInfo]]. *)
Inductive TrajElem : Type :=
| St (s : StateInfo)
| Ac (a : Action).

Definition Trajectory : Type := list TrajElem.

(** [e["action_type"]]: a StateInfo has no such key. *)
Definition get_action_type (e : TrajElem) : result ActionTypes :=
  match e with
  | Ac a => Ok (action_type a)
  | St _ => Raise KeyError
  end.

(** [e["answer"]] *)
Definition get_answer (e : TrajElem) : result string :=
  match e with
  | Ac a => Ok (answer a)
  | St _ => Raise KeyError
  end.

(** The functions of browser_env.actions that the sources call and that are
    missing from them. *)
Class Actions : Type := {
  is_equivalent : Action -> Action -> bool;
  create_id_based_action : string -> result Action;
  create_playwright_action : string -> result Action
}.

(** [is_equivalent(a, b)] on trajectory elements: the comparison starts
    from the action-type tags of both arguments, which a StateInfo lacks. *)
Definition is_equivalent_elem `{Actions} (e1 e2 : TrajElem) : result bool :=
  match e1, e2 with
  | Ac a, Ac b => Ok (is_equivalent a b)
  | _, _ => Raise KeyError
  end.

(** Modelled from the spec: the equivalence of two actions, missing from the
    sources: same action-type tag and same parameters; STOP actions are
    equivalent only if their answers match.  The raw text plays no part. *)
Definition is_equivalent_spec (a b : Action) : bool :=
  ActionTypes_eqb (action_type a) (action_type b)
  && String.eqb (element_id a) (element_id b)
  && String.eqb (text a) (text b)
  && String.eqb (key_comb a) (key_comb b)
  && String.eqb (direction a) (direction b)
  && String.eqb (url a) (url b)
  && String.eqb (answer a) (answer b).

(** *** Sample actions and stand-ins for the missing functions, for the
    examples *)

Definition click (id : string) : Action :=
  mkAction CLICK id EmptyString EmptyString EmptyString EmptyString
           EmptyString EmptyString.

Definition type_into (id content : string) : Action :=
  mkAction TYPE id content EmptyString EmptyString EmptyString EmptyString
           EmptyString.

(** Modelled from the spec: the sub-parser of the id-based action set,
    missing from the sources, cut down to the two verbs of the examples:
    [click [id]] and [stop [answer]]; any other text is a parse error. *)
Definition sample_id_based_action (s : string) : result Action :=
  if String.prefix "click [" s && PyStr.endswith s "]" then
    Ok (click (PyStr.drop_last (PyStr.drop 7 s)))
  else if String.prefix "stop [" s && PyStr.endswith s "]" then
    Ok (create_stop_action (PyStr.drop_last (PyStr.drop 6 s)))
  else Raise ActionParsingError.

#[export] Instance sample_actions : Actions := {
  is_equivalent := is_equivalent_spec;
  create_id_based_action := sample_id_based_action;
  create_playwright_action := fun _ => Raise ActionParsingError
}.

End BrowserEnv.

(** ** evaluation_harness/evaluators.py *)

Module Evaluators.
Import BrowserEnv.

(** [float(b)] *)
Definition float_of_bool (b : bool) : Q := if b then 1%Q else 0%Q.

(** [StringEvaluator.clean_answer] *)
Definition clean_answer (answer : string) : string :=
  let answer :=
    if PyStr.startswith answer (PyStr.str1 PyStr.squote)
       && PyStr.endswith answer (PyStr.str1 PyStr.squote)
    then PyStr.slice_1_m1 answer
    else if PyStr.startswith answer (PyStr.str1 PyStr.dquote)
            && PyStr.endswith answer (PyStr.str1 PyStr.dquote)
    then PyStr.slice_1_m1 answer
    else answer in
  PyStr.lower answer.

(** [StringEvaluator.exact_match] *)
Definition exact_match (ref pred : string) : Q :=
  float_of_bool (String.eqb (clean_answer pred) (clean_answer ref)).

(** The collaborators of the string evaluator that are missing from the
    sources: nltk's [word_tokenize] and the LLM judge [llm_fuzzy_match]. *)
Class Judges : Type := {
  word_tokenize : string -> list string;
  llm_fuzzy_match : string -> string -> string -> Q
}.

(** [x in l] for a list of strings *)
Definition str_in_list (x : string) (l : list string) : bool :=
  existsb (String.eqb x) l.

(** [StringEvaluator.must_include] *)
Definition must_include `{Judges} (ref pred : string) : Q :=
  let clean_ref := clean_answer ref in
  let clean_pred := clean_answer pred in
  if (List.length (word_tokenize clean_ref) =? 1)%nat
  then float_of_bool (str_in_list clean_ref (word_tokenize clean_pred))
  else float_of_bool (PyStr.occurs clean_ref clean_pred).

(** [StringEvaluator.fuzzy_match] *)
Definition fuzzy_match `{Judges} (ref pred intent : string) : Q :=
  llm_fuzzy_match pred ref intent.

(** A value of [configs["eval"]["reference_answers"]]: a string or a list
    of strings. *)
Inductive RefValue : Type :=
| RStr (s : string)
| RList (l : list string).

(** The part of a task configuration that the string evaluator reads. *)
Record Config : Type := mkConfig {
  intent : string;
  reference_answers : list (string * RefValue)
}.

(** [Evaluator.get_last_action]: [trajectory[-1]], an IndexError being
    turned into a ValueError. *)
Definition get_last_action (trajectory : Trajectory) : result TrajElem :=
  match List.rev trajectory with
  | [] => Raise ValueError
  | e :: _ => Ok e
  end.

(** The inner loops [for v in value: score *= f(v)]. *)
Definition scale_all (f : string -> Q) (l : list string) (score : Q) : Q :=
  fold_left (fun acc v => (acc * f v)%Q) l score.

(** One turn of the loop over [reference_answers.items()]: the [match] on
    the approach has no default case, so other keys leave the score as it
    is.  [exact_match] is type-checked on a string, the two other
    approaches assert a list. *)
Definition string_step `{Judges} (cfg : Config) (pred : string)
    (score : Q) (item : string * RefValue) : result Q :=
  let (approach, value) := item in
  if String.eqb approach "exact_match" then
    match value with
    | RStr v => Ok (score * exact_match v pred)%Q
    | RList _ => Raise TypeError
    end
  else if String.eqb approach "must_include" then
    match value with
    | RList l => Ok (scale_all (fun v => must_include v pred) l score)
    | RStr _ => Raise AssertionError
    end
  else if String.eqb approach "fuzzy_match" then
    match value with
    | RList l =>
        Ok (scale_all (fun v => fuzzy_match v pred (intent cfg)) l score)
    | RStr _ => Raise AssertionError
    end
  else Ok score.

Fixpoint string_loop `{Judges} (cfg : Config) (pred : string)
    (items : list (string * RefValue)) (score : Q) : result Q :=
  match items with
  | [] => Ok score
  | item :: rest =>
      score' <- string_step cfg pred score item ;;
      string_loop cfg pred rest score'
  end.

(** [StringEvaluator.__call__] *)
Definition StringEvaluator_call `{Judges} (trajectory : Trajectory)
    (configs : Config) : result Q :=
  last_action <- get_last_action trajectory ;;
  ans <- get_answer last_action ;;
  let pred := clean_answer ans in
  string_loop configs pred (reference_answers configs) 1%Q.

(** An evaluator object: its [__call__] on a trajectory and a task
    configuration. *)
Definition Evaluator : Type := Trajectory -> Config -> result Q.

(** [EvaluatorComb.__call__] *)
Fixpoint comb_loop (evaluators : list Evaluator) (trajectory : Trajectory)
    (configs : Config) (score : Q) : result Q :=
  match evaluators with
  | [] => Ok score
  | evaluator :: rest =>
      cur_score <- evaluator trajectory configs ;;
      comb_loop rest trajectory configs (score * cur_score)%Q
  end.

Definition EvaluatorComb_call (evaluators : list Evaluator)
    (trajectory : Trajectory) (configs : Config) : result Q :=
  comb_loop evaluators trajectory configs 1%Q.

(** The product of a list of scores. *)
Definition product (scores : list Q) : Q := fold_right Qmult 1%Q scores.

(** The criteria of a string evaluation, in the order of the configuration:
    one score for an [exact_match] entry, one for each phrase of a
    [must_include] entry and one for each reference of a [fuzzy_match]
    entry. *)
Definition criteria_of `{Judges} (cfg : Config) (pred : string)
    (item : string * RefValue) : list Q :=
  let (approach, value) := item in
  match value with
  | RStr v =>
      if String.eqb approach "exact_match" then [exact_match v pred] else []
  | RList l =>
      if String.eqb approach "must_include"
      then map (fun v => must_include v pred) l
      else if String.eqb approach "fuzzy_match"
      then map (fun v => fuzzy_match v pred (intent cfg)) l
      else []
  end.

Definition criteria `{Judges} (cfg : Config) (pred : string) : list Q :=
  flat_map (criteria_of cfg pred) (reference_answers cfg).

(** A configuration whose [exact_match] entry is a string and whose
    [must_include] and [fuzzy_match] entries are lists. *)
Definition well_formed_item (item : string * RefValue) : bool :=
  let (approach, value) := item in
  match value with
  | RStr _ =>
      negb (String.eqb approach "must_include")
      && negb (String.eqb approach "fuzzy_match")
  | RList _ => negb (String.eqb approach "exact_match")
  end.

Definition well_formed (cfg : Config) : bool :=
  forallb well_formed_item (reference_answers cfg).

(** A score that lies between 0.0 and 1.0. *)
Definition unit_score (s : Q) : Prop := (0 <= s /\ s <= 1)%Q.

End Evaluators.

(** ** test_plan.py: the early-stop monitor *)

Module EarlyStop.
Import BrowserEnv.

(** The dictionary [early_stop_thresholds] built by [test_plan]; it always
    holds exactly these two keys. *)
Record Thresholds : Type := mkThresholds {
  parsing_failure : Z;
  repeating_action : Z
}.

(** [l[1::2]]: the elements at the odd indices. *)
Fixpoint slice_1_2 {A : Type} (l : list A) : list A :=
  match l with
  | _ :: x :: r => x :: slice_1_2 r
  | _ => []
  end.

(** [l[-k:]] for an integer [k]: the last [k] elements when [k] is
    positive (all of [l] when it has fewer), all of [l] when [k] is 0
    (as [-0] is [0]), and [l] without its first [-k] elements when [k] is
    negative. *)
Definition slice_last {A : Type} (k : Z) (l : list A) : list A :=
  if (0 <? k)%Z then skipn (List.length l - Z.to_nat k) l
  else skipn (Z.to_nat (- k)) l.

(** [len(l)] *)
Definition len {A : Type} (l : list A) : Z := Z.of_nat (List.length l).

(** [l[-1]] on a list known to be non-empty *)
Definition last_elem {A : Type} (l : list A) : option A :=
  match List.rev l with
  | [] => None
  | x :: _ => Some x
  end.

(** [sum([...])] over booleans *)
Definition count_true (l : list bool) : Z :=
  Z.of_nat (List.length (filter (fun b => b) l)).

(** [(len(trajectory) - 1) / 2]: true division; the quotient of an integer
    by 2 is exact. *)
Definition num_steps (trajectory : Trajectory) : Q :=
  ((len trajectory - 1) # 2)%Q.

(** [early_stop] *)
Definition early_stop `{Actions} (trajectory : Trajectory) (max_steps : Z)
    (thresholds : Thresholds) : result (bool * string) :=
  (* reach the max step *)
  if Qle_bool (inject_Z max_steps) (num_steps trajectory) then
    Ok (true, "Reach max steps " ++ PyStr.str_of_int max_steps)
  else
  (* Case: parsing failure for k times *)
  let k := parsing_failure thresholds in
  let last_k_actions := slice_last k (slice_1_2 trajectory) in
  parse_failed <-
    (if (k <=? len last_k_actions)%Z then
       tys <- mapM get_action_type last_k_actions ;;
       Ok (forallb (fun t => ActionTypes_eqb t NONE) tys)
     else Ok false) ;;
  if parse_failed then
    Ok (true, "Failed to parse actions for " ++ PyStr.str_of_int k ++ " times")
  else
  (* Case: same action for k times *)
  let k := repeating_action thresholds in
  let last_k_actions := slice_last k (slice_1_2 trajectory) in
  let action_seq := slice_1_2 trajectory in
  match last_elem action_seq with
  | None => Ok (false, EmptyString)
  | Some last_action =>
      ty <- get_action_type last_action ;;
      if negb (ActionTypes_eqb ty TYPE) then
        same <-
          (if (k <=? len last_k_actions)%Z then
             eqs <- mapM (fun action => is_equivalent_elem action last_action)
                         last_k_actions ;;
             Ok (forallb (fun b => b) eqs)
           else Ok false) ;;
        if same then
          Ok (true, "Same action for " ++ PyStr.str_of_int k ++ " times")
        else Ok (false, EmptyString)
      else
        (* check the action sequence *)
        eqs <- mapM (fun action => is_equivalent_elem action last_action)
                    action_seq ;;
        if (k <=? count_true eqs)%Z then
          Ok (true, "Same typing action for " ++ PyStr.str_of_int k ++ " times")
        else Ok (false, EmptyString)
  end.

(** *** The rules in the specification's words, on a sequence of actions *)

(** The last [n] elements of a list (all of it when it has fewer). *)
Definition lastn {A : Type} (n : nat) (l : list A) : list A :=
  skipn (List.length l - n) l.

Definition is_none (a : Action) : bool := ActionTypes_eqb (action_type a) NONE.

(** At least [k] actions exist and the last [k] are all the none
    sentinel. *)
Definition parse_failure_fires (k : Z) (acts : list Action) : bool :=
  (k <=? len acts)%Z && forallb is_none (lastn (Z.to_nat k) acts).

(** The number of actions of [acts] that are equivalent to [a]. *)
Definition count_equivalent `{Actions} (a : Action) (acts : list Action) : Z :=
  Z.of_nat (List.length (filter (fun x => is_equivalent x a) acts)).

(** At least [k] actions exist and the last [k] are all equivalent to
    [a]. *)
Definition last_k_repeat `{Actions} (k : Z) (a : Action)
    (acts : list Action) : bool :=
  (k <=? len acts)%Z
  && forallb (fun x => is_equivalent x a) (lastn (Z.to_nat k) acts).

(** What lines 176-203 answer on a sequence of actions: the verdict of the
    repetition rule, the slices being those of the source. *)
Definition repetition_verdict `{Actions} (k : Z) (acts : list Action)
    : bool * string :=
  match last_elem acts with
  | None => (false, EmptyString)
  | Some a =>
      if negb (ActionTypes_eqb (action_type a) TYPE) then
        if (k <=? len (slice_last k acts))%Z
           && forallb (fun x => is_equivalent x a) (slice_last k acts)
        then (true, "Same action for " ++ PyStr.str_of_int k ++ " times")
        else (false, EmptyString)
      else
        if (k <=? count_equivalent a acts)%Z
        then (true,
              "Same typing action for " ++ PyStr.str_of_int k ++ " times")
        else (false, EmptyString)
  end.

End EarlyStop.

(** ** The fragment of Python's [re] that the prompt constructors use

    Every pattern of the sources is a sequence of literal texts and of
    repetitions of one character class, some of them capture groups.  The
    matcher below is the backtracking matcher of [re] on that fragment: a
    greedy repetition first takes as many characters as it can and gives
    them back one by one, a lazy one first takes as few as allowed and
    extends one by one; the first complete match in that order is the match. *)

Module Re.

Inductive item : Type :=
| Lit (s : string)
| Rep (cls : ascii -> bool) (lo : nat) (greedy : bool) (cap : bool).

Definition pattern : Type := list item.

(** The outcome of a match at a position: the captured groups, in order,
    and the text after the match. *)
Definition matched : Type := (list string * string)%type.

Fixpoint strip_prefix (p s : string) : option string :=
  match p, s with
  | EmptyString, _ => Some s
  | String a p', String b s' =>
      if Ascii.eqb a b then strip_prefix p' s' else None
  | String _ _, EmptyString => None
  end.

(** A repetition followed by the rest of the pattern [k]; [acc] is the text
    taken so far and [n] its length. *)
Fixpoint rep_match (cls : ascii -> bool) (lo : nat) (greedy cap : bool)
    (k : string -> option matched) (acc : string) (n : nat) (s : string)
    {struct s} : option matched :=
  let stop (_ : unit) :=
    if (lo <=? n)%nat then
      match k s with
      | Some (caps, r) => Some (if cap then acc :: caps else caps, r)
      | None => None
      end
    else None in
  let more (_ : unit) :=
    match s with
    | String c r =>
        if cls c
        then rep_match cls lo greedy cap k (acc ++ String c EmptyString) (S n) r
        else None
    | EmptyString => None
    end in
  if greedy then
    match more tt with
    | Some m => Some m
    | None => stop tt
    end
  else
    match stop tt with
    | Some m => Some m
    | None => more tt
    end.

(** A match of the whole pattern starting at the beginning of [s]. *)
Fixpoint match_here (p : pattern) : string -> option matched :=
  match p with
  | [] => fun s => Some ([], s)
  | Lit l :: p' =>
      fun s =>
        match strip_prefix l s with
        | Some r => match_here p' r
        | None => None
        end
  | Rep cls lo greedy cap :: p' =>
      rep_match cls lo greedy cap (match_here p') EmptyString 0
  end.

(** [re.search(p, s)]: the groups of the leftmost match. *)
Fixpoint search (p : pattern) (s : string) : option (list string) :=
  match match_here p s with
  | Some (caps, _) => Some caps
  | None =>
      match s with
      | EmptyString => None
      | String _ r => search p r
      end
  end.

(** [re.finditer(p, s)] for a pattern that matches no empty text: the
    groups of the successive matches, each search resuming where the
    previous match ended.  [skip] counts the characters of the last match
    that are still to be passed. *)
Fixpoint finditer_from (skip : nat) (p : pattern) (s : string)
    : list (list string) :=
  match skip with
  | S k =>
      match s with
      | EmptyString => []
      | String _ r => finditer_from k p r
      end
  | O =>
      match match_here p s with
      | Some (caps, rest) =>
          caps ::
          match s with
          | EmptyString => []
          | String _ r =>
              finditer_from (String.length s - String.length rest - 1) p r
          end
      | None =>
          match s with
          | EmptyString => []
          | String _ r => finditer_from 0 p r
          end
      end
  end.

Definition finditer (p : pattern) (s : string) : list (list string) :=
  finditer_from 0 p s.

(** [m.group(i)], the groups being numbered from 1 *)
Definition group (i : nat) (caps : list string) : string :=
  nth (i - 1) caps EmptyString.

(** The character classes of the sources' patterns. *)
Definition dot (c : ascii) : bool := negb (Ascii.eqb c PyStr.newline).
Definition any (_ : ascii) : bool := true.
Definition digit (c : ascii) : bool :=
  let n := nat_of_ascii c in ((48 <=? n) && (n <=? 57))%nat.

End Re.

(** ** agent/prompts/prompt_constructor.py *)

Module PromptConstructor.
Import Re.

(** What the parsers read of a prompt constructor: the action splitter of
    the instruction's metadata (a literal text such as three backquotes,
    free of [re] metacharacters) and the items of [URL_MAPPINGS]. *)
Record t : Type := mk {
  action_splitter : string;
  URL_MAPPINGS : list (string * string)
}.

(** [map_url_to_local] *)
Definition map_url_to_local (self : t) (url : string) : string :=
  fold_left
    (fun url (ij : string * string) =>
       let (i, j) := ij in
       if PyStr.occurs j url then PyStr.replace url j i else url)
    (URL_MAPPINGS self) url.

(** The pattern of [_extract_action]: the splitter, a lazy run of
    non-newline characters (group 1) and the splitter again. *)
Definition action_pattern_of (action_splitter : string) : pattern :=
  [Lit action_splitter; Rep dot 0 false true; Lit action_splitter].

(** [_extract_action] *)
Definition _extract_action (self : t) (response : string) : result string :=
  match search (action_pattern_of (action_splitter self)) response with
  | Some caps => Ok (group 1 caps)
  | None => Raise ActionParsingError
  end.

(** [extract_action] *)
Definition extract_action (self : t) (response : string) : result string :=
  response <- _extract_action self response ;;
  Ok (map_url_to_local self response).

(** The entries of a parsed local plan. *)
Record ActionInfo : Type := mkActionInfo {
  Action_Number : string;
  Action_Description : string
}.

(** The pattern of [parse_local_plan]: the literal text [**Action ], one or
    more digits (group 1), the literal [:** ], one or more characters other
    than a newline, as few as possible (group 2), and a newline. *)
Definition action_pattern : pattern :=
  [Lit "**Action "; Rep digit 1 true true; Lit ":** ";
   Rep dot 1 false true; Lit (PyStr.str1 PyStr.newline)].

(** [parse_local_plan] *)
Definition parse_local_plan (text : string) : list ActionInfo :=
  map (fun m => mkActionInfo (group 1 m) (PyStr.strip (group 2 m)))
      (finditer action_pattern text).

(** The entries of a parsed global plan. *)
Record SubtaskInfo : Type := mkSubtaskInfo {
  Subtask_Number : string;
  Subtask_Description : string;
  Subtask_Action : string;
  Expected_State : string
}.

(** The pattern of [parse_global_plan]: the literal [**Subtask ], digits
    (group 1), [: ], a lazy run of non-newline characters (group 2), [**],
    a lazy run of any characters, [-], a run of white space,
    [**Subtask**: ], a lazy run of non-newline characters (group 3), a
    newline and [- **Expected State**: ], a lazy run of non-newline
    characters (group 4), and two newlines. *)
Definition subtask_pattern : pattern :=
  [Lit "**Subtask "; Rep digit 1 true true; Lit ": ";
   Rep dot 1 false true; Lit "**"; Rep any 0 false false; Lit "-";
   Rep PyStr.isspace 1 true false; Lit "**Subtask**: ";
   Rep dot 1 false true;
   Lit (String PyStr.newline "- **Expected State**: ");
   Rep dot 1 false true;
   Lit (String PyStr.newline (PyStr.str1 PyStr.newline))].

(** [parse_global_plan] *)
Definition parse_global_plan (text : string) : list SubtaskInfo :=
  map (fun m =>
         mkSubtaskInfo (group 1 m) (PyStr.strip (group 2 m))
                       (PyStr.strip (group 3 m)) (PyStr.strip (group 4 m)))
      (finditer subtask_pattern text).

(** A marker, a lazy run of non-newline characters (group 1) and a
    newline: the patterns of the Decision and Result fields. *)
Definition line_pattern (marker : string) : pattern :=
  [Lit marker; Rep dot 0 false true; Lit (PyStr.str1 PyStr.newline)].

(** A marker and a greedy run of any characters (group 1), the pattern
    being compiled with DOTALL: the pattern of the Reasons field. *)
Definition tail_pattern (marker : string) : pattern :=
  [Lit marker; Rep any 0 true true].

Definition decision_pattern : pattern := line_pattern "Decision: ".
Definition result_pattern : pattern := line_pattern "Result: ".
Definition reasons_pattern : pattern := tail_pattern "Reasons: ".

(** The dictionary returned by [parse_decide_result]; Python's [None] is
    the absent marker. *)
Record DecideResult : Type := mkDecideResult {
  Decision : option string;
  Decision_Reasons : option string
}.

(** [parse_decide_result] *)
Definition parse_decide_result (response : string) : DecideResult :=
  let decision_match := search decision_pattern response in
  let reasons_match := search reasons_pattern response in
  let decision :=
    match decision_match with
    | Some m => Some (PyStr.lower (PyStr.strip (group 1 m)))
    | None => None
    end in
  let reasons :=
    match reasons_match with
    | Some m => Some (PyStr.strip (group 1 m))
    | None => None
    end in
  mkDecideResult decision reasons.

(** The dictionary returned by [parse_check_result]. *)
Record CheckResult : Type := mkCheckResult {
  Result : option string;
  Check_Reasons : option string
}.

(** [parse_check_result] *)
Definition parse_check_result (response : string) : CheckResult :=
  let result_match := search result_pattern response in
  let reasons_match := search reasons_pattern response in
  let result :=
    match result_match with
    | Some m => Some (PyStr.lower (PyStr.strip (group 1 m)))
    | None => None
    end in
  let reasons :=
    match reasons_match with
    | Some m => Some (PyStr.strip (group 1 m))
    | None => None
    end in
  mkCheckResult result reasons.

End PromptConstructor.

(** ** agent/agent.py *)

Module Agent.
Import BrowserEnv.

(** What [next_action] reads of a [LocalAgent]. *)
Record LocalAgent : Type := mkLocalAgent {
  action_set_tag : string;
  prompt_constructor : PromptConstructor.t
}.

(** [LocalAgent.next_action]: only an [ActionParsingError] is caught. *)
Definition next_action `{Actions} (self : LocalAgent)
    (action_description : string) : result Action :=
  let attempt :=
    parsed_action_description <-
      PromptConstructor.extract_action (prompt_constructor self)
                                       action_description ;;
    action <-
      (if String.eqb (action_set_tag self) "id_accessibility_tree"
       then create_id_based_action parsed_action_description
       else if String.eqb (action_set_tag self) "playwright"
       then create_playwright_action parsed_action_description
       else Raise ValueError) ;;
    Ok (set_raw_prediction action action_description) in
  match attempt with
  | Raise ActionParsingError =>
      Ok (set_raw_prediction create_none_action action_description)
  | r => r
  end.

End Agent.

(** ** test_plan.py: the control loop

    [test_plan] (lines 206-360) assigns [scores], [max_steps] and
    [early_stop_thresholds], builds the browser environment and defines two
    nested functions, [process_action] (lines 232-244) and
    [execute_local_plan] (lines 246-360).  It has no further statement: the
    statements that run the tasks (lines 297-360) are indented under the
    [while] loop of [execute_local_plan] and belong to that function, and
    nothing calls either nested function from outside.

    Python fixes the scope of a name function by function.  A name that a
    function assigns anywhere in its body, or takes as a parameter, is a
    local variable of that function, and reading it before it is assigned
    raises an UnboundLocalError.  A name that the function does not assign
    is looked up in the enclosing function, then in the module, then among
    the built-in names, and raises a NameError when none of them binds it.

    The agents are the instances of [LocalAgent] and [GlobalPlanner] that
    [construct_agent] builds; looking up an attribute that neither the
    instance nor its class has raises an AttributeError. *)

Module TestPlan.
Import BrowserEnv EarlyStop.

(** *** Exceptions of name and attribute lookup *)

Inductive error : Type :=
| UnboundLocal (name : string)
| NameNotDefined (name : string)
| NoAttribute (class attribute : string).

Inductive outcome (A : Type) : Type :=
| Value (a : A)
| Error (e : error).

Arguments Value {A} a.
Arguments Error {A} e.

Definition and_then {A B : Type} (o : outcome A) (k : A -> outcome B)
  : outcome B :=
  match o with
  | Value a => k a
  | Error e => Error e
  end.

Notation "x <~ o ;; k" := (and_then o (fun x => k))
  (at level 61, o at next level, right associativity).

Notation "o >> k" := (and_then o (fun _ => k))
  (at level 61, right associativity).

(** *** The scopes of test_plan.py *)

(** The names bound at the level of the module: its imports (lines 1-32),
    its assignments (lines 34-50), its functions and the names that the
    block under [if __name__ == "__main__"] assigns (lines 408-431). *)
Definition module_names : list string :=
  ["argparse"; "glob"; "json"; "logging"; "os"; "random"; "time"; "Path";
   "openai"; "Agent"; "GlobalPlanner"; "LocalAgent"; "construct_agent";
   "Action"; "ActionTypes"; "ScriptBrowserEnv"; "StateInfo"; "Trajectory";
   "create_stop_action"; "is_equivalent"; "RenderHelper";
   "get_action_description"; "evaluator_router";
   "LOG_FOLDER"; "LOG_FILE_NAME"; "logger"; "console_handler";
   "file_handler"; "formatter";
   "config"; "early_stop"; "test_plan"; "prepare"; "get_unfinished";
   "dump_config";
   "args"; "test_file_list"; "st_idx"; "ed_idx"; "i"; "local_agent";
   "global_planner"].

(** Modelled from the spec: the names that [from agent.prompts import *]
    (line 18) binds; the package file agent/prompts/__init__.py is missing
    from the sources.  They are taken to be the names that
    prompt_constructor.py binds at the level of its module. *)
Definition star_names : list string :=
  ["json"; "re"; "Path"; "Any"; "TypedDict"; "tiktoken"; "Action";
   "ActionParsingError"; "Trajectory"; "URL_MAPPINGS"; "StateInfo";
   "lm_config"; "APIInput"; "Instruction"; "PromptConstructor";
   "LocalPromptConstructor"; "GlobalPromptConstructor"].

(** The built-in names that the two nested functions use. *)
Definition builtin_names : list string :=
  ["isinstance"; "str"; "len"; "sum"; "open"; "repr"; "IndexError";
   "Exception"].

(** The parameters of [test_plan] and the names that it assigns (lines
    207-246). *)
Definition test_plan_names : list string :=
  ["args"; "local_agent"; "global_planner"; "config_file_list";
   "scores"; "max_steps"; "early_stop_thresholds"; "env";
   "process_action"; "execute_local_plan"].

(** The parameters of [process_action] and the one name that it assigns
    (line 234). *)
Definition process_action_names : list string :=
  ["action"; "state_info"; "meta_data"; "action_str"].

(** The parameters of [execute_local_plan] and the names that it assigns,
    in the order of their first assignment (lines 246-353). *)
Definition execute_local_plan_names : list string :=
  ["local_plan"; "cur_phase_task";
   "action_num"; "action"; "decision"; "e"; "action_str"; "is_aligned";
   "revised_local_plan"; "replan_request"; "replan_decision";
   "global_plan"; "global_plan_num"; "phase_num"; "overrule_info";
   "obs"; "reward"; "done"; "info"; "state_info";
   "completion_report"; "final_result";
   "config_file"; "render_helper"; "f"; "_c"; "intent"; "task_id";
   "trajectory"; "meta_data"; "initial_global_plan"; "global_plan_len";
   "early_stop_flag"; "stop_info"; "evaluator"; "score"; "traceback"].

Inductive scope : Type :=
| LocalName
| EnclosingName
| GlobalName
| BuiltinName
| NoName.

Definition mem (name : string) (names : list string) : bool :=
  existsb (String.eqb name) names.

(** The scope of a name that occurs in a function nested in [test_plan],
    where [locals] are the parameters and the assigned names of that
    function. *)
Definition scope_of (locals : list string) (name : string) : scope :=
  if mem name locals then LocalName
  else if mem name test_plan_names then EnclosingName
  else if mem name module_names || mem name star_names then GlobalName
  else if mem name builtin_names then BuiltinName
  else NoName.

(** Reading a local variable. *)
Definition read_local {A : Type} (name : string) (binding : option A)
  : outcome A :=
  match binding with
  | Some a => Value a
  | None => Error (UnboundLocal name)
  end.

(** Reading a name that the function does not assign.  The names of
    [test_plan] and of the module that the nested functions read are all
    bound before a nested function can be called. *)
Definition load_name (locals : list string) (name : string) : outcome scope :=
  match scope_of locals name with
  | NoName => Error (NameNotDefined name)
  | s => Value s
  end.

(** *** The agents *)

(** The attributes of an instance of [LocalAgent] (agent.py, lines 26-42
    and 104-184): those that [__init__] sets and the methods of the class
    and of its base class [Agent]. *)
Definition LocalAgent_attributes : list string :=
  ["lm_config"; "prompt_constructor"; "action_set_tag";
   "__init__"; "set_action_set_tag"; "next_action"; "local_plan"; "reset"].

(** The attributes of an instance of [GlobalPlanner] (agent.py, lines
    26-102). *)
Definition GlobalPlanner_attributes : list string :=
  ["lm_config"; "prompt_constructor"; "action_set_tag";
   "__init__"; "set_action_set_tag"; "reset"; "global_plan"; "next_action"].

Inductive agent : Type :=
| local_agent
| global_planner.

Definition class_of (a : agent) : string :=
  match a with
  | local_agent => "LocalAgent"
  | global_planner => "GlobalPlanner"
  end.

Definition attributes_of (a : agent) : list string :=
  match a with
  | local_agent => LocalAgent_attributes
  | global_planner => GlobalPlanner_attributes
  end.

(** [a.name]: the lookup of an attribute, which comes before the arguments
    of a call [a.name(...)] are evaluated. *)
Definition getattr (a : agent) (name : string) : outcome unit :=
  if mem name (attributes_of a) then Value tt
  else Error (NoAttribute (class_of a) name).

(** *** The variables of [execute_local_plan] *)

Definition PhaseTask : Type := PromptConstructor.SubtaskInfo.
Definition GlobalPlan : Type := list PhaseTask.

(** A local plan is what [LocalAgent.local_plan] returns: the list of
    dictionaries of [parse_local_plan]. *)
Definition LocalPlan : Type := list PromptConstructor.ActionInfo.

(** The values of the variable [action]: an entry of the local plan (line
    254) or an action made by [create_stop_action] (lines 250 and 256). *)
Inductive LoopAction : Type :=
| PlanEntry (entry : PromptConstructor.ActionInfo)
| Created (a : Action).

(** The local variables of one call of [execute_local_plan] as they stand
    at the head of its loop.  The two parameters and [action_num] (line
    247) are bound; every other local is bound or not.  The fields are the
    locals that lines 249-261 read or assign and those that the properties
    below speak about; the remaining locals are read and assigned by lines
    263-360 only. *)
Record Frame : Type := mkFrame {
  local_plan : LocalPlan;
  cur_phase_task : PhaseTask;
  action_num : nat;
  early_stop_flag : option bool;
  stop_info : option string;
  action : option LoopAction;
  state_info : option StateInfo;
  meta_data : option (list string);
  trajectory : option Trajectory;
  global_plan : option GlobalPlan;
  phase_num : option nat;
  done : option bool
}.

(** The locals when the loop is entered for the first time: line 247 has
    run and nothing else. *)
Definition entry_frame (local_plan : LocalPlan) (cur_phase_task : PhaseTask)
  : Frame :=
  mkFrame local_plan cur_phase_task 0
          None None None None None None None None None.

Definition set_action (fr : Frame) (a : LoopAction) : Frame :=
  mkFrame (local_plan fr) (cur_phase_task fr) (action_num fr)
          (early_stop_flag fr) (stop_info fr) (Some a) (state_info fr)
          (meta_data fr) (trajectory fr) (global_plan fr) (phase_num fr)
          (done fr).

Definition set_action_num (fr : Frame) (n : nat) : Frame :=
  mkFrame (local_plan fr) (cur_phase_task fr) n
          (early_stop_flag fr) (stop_info fr) (action fr) (state_info fr)
          (meta_data fr) (trajectory fr) (global_plan fr) (phase_num fr)
          (done fr).

(** How a turn of the loop ends when it raises nothing: the loop goes on
    with the next turn, or the function returns ([None] after a [break],
    the value of [done] at line 295). *)
Inductive TurnEnd : Type :=
| NextTurn (fr : Frame)
| Return (value : option bool).

Section Loop.

(** [get_action_description] of browser_env.helper_functions, which is not
    among the sources: some text for an action in a state. *)
Variable get_action_description : LoopAction -> StateInfo -> string.

(** Lines 263-360, the rest of a turn: from the locals after line 261 and
    the value of [action_str] to the end of the turn. *)
Variable lines_263_360 : Frame -> string -> outcome TurnEnd.

(** [process_action], lines 232-244.  The function assigns [action_str]
    only; [trajectory] (line 233), [PromptAgent] (line 239) and
    [render_helper] (line 242) are names that it reads. *)
Definition process_action (action : LoopAction) (state_info : StateInfo)
    (meta_data : list string) : outcome (string * list string) :=
  (* line 233: trajectory.append(action) *)
  load_name process_action_names "trajectory" >>
  (* lines 234-241: the function, then its arguments from left to right *)
  load_name process_action_names "get_action_description" >>
  load_name process_action_names "args" >>
  load_name process_action_names "isinstance" >>
  load_name process_action_names "Agent" >>
  load_name process_action_names "PromptAgent" >>
  let action_str := get_action_description action state_info in
  (* line 242 *)
  load_name process_action_names "render_helper" >>
  (* lines 243-244 *)
  Value (action_str, (meta_data ++ [action_str])%list).

(** Lines 249-258: the action of the turn. *)
Definition choose_action (fr : Frame) : outcome Frame :=
  flag <~ read_local "early_stop_flag" (early_stop_flag fr) ;;
  if (flag : bool) then
    info <~ read_local "stop_info" (stop_info fr) ;;
    let fr := set_action fr (Created (create_stop_action ("Early stop: " ++ info))) in
    (* line 251: decision = local_agent.check_action(...) *)
    getattr local_agent "check_action" >>
    Value fr
  else
    match nth_error (local_plan fr) (action_num fr) with
    | Some entry =>
        let fr := set_action fr (PlanEntry entry) in
        Value (set_action_num fr (S (action_num fr)))
    | None =>
        let fr := set_action fr
                    (Created (create_stop_action
                                ("ERROR: " ++ "list index out of range"))) in
        (* line 257 *)
        getattr local_agent "check_action" >>
        Value (set_action_num fr (S (action_num fr)))
    end.

(** One turn of the loop of [execute_local_plan], lines 249-360. *)
Definition turn (fr : Frame) : outcome TurnEnd :=
  fr <~ choose_action fr ;;
  (* line 260: action_str = process_action(action, state_info, meta_data) *)
  a <~ read_local "action" (action fr) ;;
  s <~ read_local "state_info" (state_info fr) ;;
  m <~ read_local "meta_data" (meta_data fr) ;;
  described <~ process_action a s m ;;
  let fr := mkFrame (local_plan fr) (cur_phase_task fr) (action_num fr)
                    (early_stop_flag fr) (stop_info fr) (action fr)
                    (state_info fr) (Some (snd described)) (trajectory fr)
                    (global_plan fr) (phase_num fr) (done fr) in
  (* line 261: is_aligned = local_agent.check_alignment(...) *)
  getattr local_agent "check_alignment" >>
  lines_263_360 fr (fst described).

(** The loop of [execute_local_plan]; [None] when [fuel] turns did not end
    it. *)
Fixpoint loop (fuel : nat) (fr : Frame) : option (outcome (option bool)) :=
  match fuel with
  | O => None
  | S fuel' =>
      match turn fr with
      | Error e => Some (Error e)
      | Value (Return value) => Some (Value value)
      | Value (NextTurn fr') => loop fuel' fr'
      end
  end.


End Loop.

(** The exceptions that lines 249-261 can raise. *)
Definition raised_before_line_263 (e : error) : Prop :=
  e = UnboundLocal "early_stop_flag"
  \/ e = UnboundLocal "stop_info"
  \/ e = NoAttribute "LocalAgent" "check_action"
  \/ e = UnboundLocal "state_info"
  \/ e = UnboundLocal "meta_data"
  \/ e = NameNotDefined "trajectory".

(** *** [test_plan] *)





End TestPlan.

(** ** Sample data for the examples *)

Module Samples.
Import BrowserEnv EarlyStop.

Definition s0 : StateInfo := mkStateInfo "page 0" "http://homepage.com".
Definition s1 : StateInfo := mkStateInfo "page 1" "http://homepage.com/1".

(** A trajectory that starts in state [s] and in which every action of
    [acts] is followed by the state [s]. *)
Definition trajectory_of (s : StateInfo) (acts : list Action) : Trajectory :=
  St s :: flat_map (fun a => [Ac a; St s]) acts.

Definition th33 : Thresholds := mkThresholds 3 3.

(** A stand-in for the two external judges of the string evaluator: the
    tokens of a text are the text itself, and the judge accepts. *)
Definition sample_judges : Evaluators.Judges := {|
  Evaluators.word_tokenize := fun s => [s];
  Evaluators.llm_fuzzy_match := fun _ _ _ => 1%Q
|}.

(** The local agent of the examples: the id-based action set and three
    backquotes as the splitter. *)
Definition id_agent : Agent.LocalAgent :=
  Agent.mkLocalAgent "id_accessibility_tree" (PromptConstructor.mk "```" []).

(** The task configuration of the price example. *)
Definition price_config : Evaluators.Config :=
  Evaluators.mkConfig "What is the price of the fax machine"
    [("exact_match", Evaluators.RStr "$279.49")].

Definition string_evaluator : Evaluators.Evaluator :=
  @Evaluators.StringEvaluator_call sample_judges.

(** An evaluator that always scores 1.0. *)
Definition passing_evaluator : Evaluators.Evaluator :=
  fun _ _ => Ok 1%Q.

End Samples.

(** ** More Python string operations *)

Module PyText.

(** [all(p(c) for c in s)] *)
Fixpoint all_chars (p : ascii -> bool) (s : string) : bool :=
  match s with
  | EmptyString => true
  | String c r => p c && all_chars p r
  end.

(** [s.split(sep)] for a non-empty [sep]: the pieces between the
    occurrences of [sep], which are found from left to right, without
    overlap.  [cur] is the piece being read and [skip] counts the
    characters of the separator just found that are still to be passed. *)
Fixpoint split_from (skip : nat) (sep cur s : string) : list string :=
  match skip with
  | S k =>
      match s with
      | EmptyString => [cur]
      | String _ r => split_from k sep cur r
      end
  | O =>
      match s with
      | EmptyString => [cur]
      | String c r =>
          if String.prefix sep s
          then cur :: split_from (String.length sep - 1) sep EmptyString r
          else split_from 0 sep (cur ++ String c EmptyString) r
      end
  end.

Definition split (s sep : string) : list string :=
  split_from 0 sep EmptyString s.

(** [os.path.basename(path)] on a POSIX path: what follows the last
    slash. *)
Definition basename (path : string) : string :=
  last (split path "/") EmptyString.

(** The marker [m] starts at no position of [pre] in the text
    [pre ++ tail]. *)
Fixpoint absent_before (m pre tail : string) : bool :=
  match pre with
  | EmptyString => true
  | String _ pre' =>
      negb (String.prefix m (pre ++ tail)) && absent_before m pre' tail
  end.

(** The text holds no newline. *)
Definition no_newline (s : string) : bool := all_chars Re.dot s.

End PyText.

(** ** agent/prompts/prompt_constructor.py, continued *)

Module Prompts.
Import Re PromptConstructor.

(** [map_url_to_real] *)
Definition map_url_to_real (self : PromptConstructor.t) (url : string)
    : string :=
  fold_left
    (fun url (ij : string * string) =>
       let (i, j) := ij in
       if PyStr.occurs i url then PyStr.replace url i j else url)
    (URL_MAPPINGS self) url.

(** What [get_lm_api_input] reads of the language-model configuration. *)
Record LMConfig : Type := mkLMConfig {
  provider : string;
  mode : string
}.

(** A chat message: the keys role, name (when present) and content. *)
Record Message : Type := mkMessage {
  role : string;
  name : option string;
  content : string
}.

Inductive APIInput : Type :=
| Chat (message : list Message)
| Completion (message : string).

Inductive APIResult : Type :=
| APIOk (input : APIInput)
| APIValueError
| APINotImplementedError.

Definition nl : string := PyStr.str1 PyStr.newline.

(** The loop over the examples in chat mode. *)
Definition example_messages (examples : list (string * string))
    : list Message :=
  flat_map
    (fun xy : string * string =>
       let (x, y) := xy in
       [mkMessage "system" (Some "example_user") x;
        mkMessage "system" (Some "example_assistant") y])
    examples.

(** The loop over the examples in completion mode. *)
Definition example_text (examples : list (string * string)) : string :=
  fold_left
    (fun message (example : string * string) =>
       message ++ ("Observation" ++ nl ++ ":" ++ fst example ++ nl ++ nl)
               ++ ("Action: " ++ snd example ++ nl ++ nl))
    examples EmptyString.

(** [PromptConstructor.get_lm_api_input] *)
Definition get_lm_api_input (lm_config : LMConfig) (intro : string)
    (examples : list (string * string)) (current : string) : APIResult :=
  if PyStr.occurs "openai" (provider lm_config) then
    if String.eqb (mode lm_config) "chat" then
      APIOk (Chat ([mkMessage "system" None intro]
                   ++ example_messages examples
                   ++ [mkMessage "user" None current])%list)
    else if String.eqb (mode lm_config) "completion" then
      APIOk (Completion
               ((intro ++ nl ++ nl)
                ++ ("Here are a few examples:" ++ nl)
                ++ example_text examples
                ++ ("Now make prediction given the observation" ++ nl ++ nl)
                ++ ("Observation" ++ nl ++ ":" ++ current ++ nl ++ nl)
                ++ "Action:"))
    else APIValueError
  else APINotImplementedError.

(** The dictionary returned by [_extract_action_and_reasons]. *)
Record ActionAndReasons : Type := mkActionAndReasons {
  AR_Action : option string;
  AR_Reasons : option string
}.

(** [_extract_action_and_reasons]: the action is taken as it stands, the
    reasons are stripped. *)
Definition _extract_action_and_reasons (response : string)
    : ActionAndReasons :=
  let action_match := search (line_pattern "Action: ") response in
  let reasons_match := search reasons_pattern response in
  mkActionAndReasons
    (match action_match with
     | Some m => Some (group 1 m)
     | None => None
     end)
    (match reasons_match with
     | Some m => Some (PyStr.strip (group 1 m))
     | None => None
     end).

(** [parse_revise_result]: the value of the key Revised Plan. *)
Definition parse_revise_result (response : string) : option string :=
  match search (tail_pattern "Revised Plan: ") response with
  | Some m => Some (PyStr.strip (group 1 m))
  | None => None
  end.

(** The dictionary returned by [parse_request_result]. *)
Record RequestResult : Type := mkRequestResult {
  Request_Type : option string;
  Request_Reasons : option string
}.

(** [parse_request_result] *)
Definition parse_request_result (response : string) : RequestResult :=
  let request_type_match := search (line_pattern "Request Type: ") response in
  let reasons_match := search reasons_pattern response in
  mkRequestResult
    (match request_type_match with
     | Some m => Some (PyStr.lower (PyStr.strip (group 1 m)))
     | None => None
     end)
    (match reasons_match with
     | Some m => Some (PyStr.strip (group 1 m))
     | None => None
     end).

(** [parse_collation_result]: the value of the key Collation. *)
Definition parse_collation_result (response : string) : option string :=
  match search (tail_pattern "Collation: ") response with
  | Some m => Some (PyStr.strip (group 1 m))
  | None => None
  end.

End Prompts.

(** ** evaluation_harness/evaluators.py, continued *)

Module UrlEvaluator.
Import Evaluators.

(** The inner function [clean_url] of [URLExactEvaluator.__call__] *)
Definition clean_url (url : string) : string :=
  if PyStr.endswith url "/" then PyStr.drop_last url else url.

(** What the evaluator reads of a task configuration: the reference URLs
    and the matching rule, which is absent from some configurations. *)
Record UrlConfig : Type := mkUrlConfig {
  reference_url : string;
  url_note : option string
}.

(** [URLExactEvaluator.__call__], as a function of the URL of the page *)
Definition URLExactEvaluator_call (page_url : string) (configs : UrlConfig)
    : result Q :=
  let pred := clean_url page_url in
  let ref_urls := PyText.split (reference_url configs) " |OR| " in
  let ref_urls := map clean_url ref_urls in
  let matching_rule :=
    match url_note configs with
    | Some rule => rule
    | None => "EXACT"
    end in
  if String.eqb matching_rule "EXACT" then
    if str_in_list pred ref_urls then Ok 1%Q else Ok 0%Q
  else if String.eqb matching_rule "GOLD in PRED" then
    if existsb (fun ref => PyStr.occurs ref pred) ref_urls
    then Ok 1%Q else Ok 0%Q
  else Raise ValueError.

(** The evaluators that [evaluator_router] knows. *)
Inductive EvaluatorKind : Type :=
| KStringEvaluator
| KURLExactEvaluator
| KHTMLContentExactEvaluator.

(** [evaluator_router], on the list [eval_types] of the configuration: the
    evaluators of the combination, in order, or a ValueError. *)
Definition evaluator_router (eval_types : list string)
    : result (list EvaluatorKind) :=
  mapM (fun eval_type =>
          if String.eqb eval_type "string_match" then Ok KStringEvaluator
          else if String.eqb eval_type "url_match" then Ok KURLExactEvaluator
          else if String.eqb eval_type "program_html"
          then Ok KHTMLContentExactEvaluator
          else Raise ValueError)
       eval_types.

(** The entries of [eval_types] that the router has a case for. *)
Definition supported (eval_type : string) : bool :=
  String.eqb eval_type "string_match" || String.eqb eval_type "url_match"
  || String.eqb eval_type "program_html".

End UrlEvaluator.

(** ** test_plan.py: the tasks left to run *)

Module Unfinished.

(** [l[i]] *)
Definition index {A : Type} (l : list A) (i : nat) : result A :=
  match nth_error l i with
  | Some x => Ok x
  | None => Raise IndexError
  end.

(** [os.path.basename(f).split(".")[0]] *)
Definition stem (f : string) : string :=
  hd EmptyString (PyText.split (PyText.basename f) ".").

(** [get_unfinished], the files found by [glob] being given *)
Definition get_unfinished (config_files result_files : list string)
    : result (list string) :=
  task_ids <- mapM (fun f => index (PyText.split (stem f) "_") 1)
                   result_files ;;
  Ok (filter (fun config_file =>
                negb (Evaluators.str_in_list (stem config_file) task_ids))
             config_files).

End Unfinished.

(** * Properties *)

(** ** Python string operations *)

Section PyStrFacts.
Import PyStr.

Example startswith_ex : startswith "'abc'" "'" = true.
Proof. reflexivity. Qed.

Example endswith_ex : endswith "'abc'" "'" = true /\ endswith EmptyString "'" = false.
Proof. split; reflexivity. Qed.

Example slice_ex :
  slice_1_m1 "'abc'" = "abc" /\ slice_1_m1 "'" = EmptyString
  /\ slice_1_m1 EmptyString = EmptyString.
Proof. repeat split. Qed.

Example lower_ex : lower "Hello, World [42]" = "hello, world [42]".
Proof. reflexivity. Qed.

Example strip_ex : strip "  a b  " = "a b" /\ strip "   " = EmptyString.
Proof. split; reflexivity. Qed.

Example replace_ex : replace "aaa.b.aa" "aa" "X" = "Xa.b.X".
Proof. reflexivity. Qed.

Example str_of_int_ex :
  str_of_int 5 = "5" /\ str_of_int 0 = "0" /\ str_of_int (-12) = "-12".
Proof. repeat split. Qed.

Lemma length_lower (s : string) : String.length (lower s) = String.length s.
Proof. induction s as [|c r IH]; simpl; congruence. Qed.

Lemma lower_char_idem (c : ascii) : lower_char (lower_char c) = lower_char c.
Proof. destruct c as [[] [] [] [] [] [] [] []]; reflexivity. Qed.

Lemma lower_idem (s : string) : lower (lower s) = lower s.
Proof.
  induction s as [|c r IH]; simpl; auto.
  now rewrite lower_char_idem, IH.
Qed.

Lemma drop_lower (n : nat) (s : string) : drop n (lower s) = lower (drop n s).
Proof.
  revert s; induction n as [|n IH]; intros [|c r]; simpl; auto.
Qed.

Lemma drop_last_lower (s : string) : drop_last (lower s) = lower (drop_last s).
Proof.
  induction s as [|c r IH]; simpl; auto.
  destruct r as [|d r']; simpl in *; auto.
  now rewrite IH.
Qed.

Lemma slice_1_m1_lower (s : string) :
  slice_1_m1 (lower s) = lower (slice_1_m1 s).
Proof. destruct s; simpl; auto using drop_last_lower. Qed.

(** Lowering a character neither makes nor unmakes a quote. *)
Lemma lower_char_quote (q c : ascii) :
  q = squote \/ q = dquote ->
  Ascii.eqb (lower_char c) q = Ascii.eqb c q.
Proof.
  intros [-> | ->];
    destruct c as [[] [] [] [] [] [] [] []]; reflexivity.
Qed.

Lemma eqb_lower_str1 (q : ascii) (s : string) :
  q = squote \/ q = dquote ->
  String.eqb (lower s) (str1 q) = String.eqb s (str1 q).
Proof.
  intros Hq. destruct s as [|c r]; simpl; auto.
  rewrite (lower_char_quote q c Hq).
  destruct (Ascii.eqb c q); auto.
  destruct r; reflexivity.
Qed.

Lemma prefix_str1 (q : ascii) (s : string) :
  String.prefix (str1 q) s =
  match s with
  | EmptyString => false
  | String c _ => Ascii.eqb c q
  end.
Proof.
  destruct s as [|c r]; simpl; auto.
  destruct (ascii_dec q c) as [->|Hne].
  - rewrite Ascii.eqb_refl. now destruct r.
  - symmetry. apply Ascii.eqb_neq. congruence.
Qed.

Lemma startswith_lower (q : ascii) (s : string) :
  q = squote \/ q = dquote ->
  startswith (lower s) (str1 q) = startswith s (str1 q).
Proof.
  intros Hq. unfold startswith. rewrite !prefix_str1.
  destruct s; simpl; auto using lower_char_quote.
Qed.

Lemma endswith_lower (q : ascii) (s : string) :
  q = squote \/ q = dquote ->
  endswith (lower s) (str1 q) = endswith s (str1 q).
Proof.
  intros Hq. unfold endswith.
  now rewrite length_lower, drop_lower, eqb_lower_str1.
Qed.

Lemma drop_app_length (a b : string) : drop (String.length a) (a ++ b) = b.
Proof. induction a; simpl; auto. Qed.

Lemma string_length_app (a b : string) :
  String.length (a ++ b) = (String.length a + String.length b)%nat.
Proof. induction a; simpl; auto. Qed.

Lemma drop_last_app_char (a : string) (c : ascii) :
  drop_last (a ++ str1 c) = a.
Proof.
  induction a as [|d r IH]; simpl; auto.
  rewrite IH. destruct r; reflexivity.
Qed.

Lemma endswith_app_char (a : string) (c : ascii) :
  endswith (a ++ str1 c) (str1 c) = true.
Proof.
  unfold endswith. rewrite string_length_app.
  change (String.length (str1 c)) with 1%nat.
  replace (String.length a + 1 - 1)%nat with (String.length a) by lia.
  rewrite drop_app_length, String.eqb_refl, andb_true_r.
  apply Nat.leb_le. lia.
Qed.

End PyStrFacts.

(** ** The evaluators *)

Section EvaluatorFacts.
Import BrowserEnv Evaluators.

(** The quotes are looked for before or after the lowering, as one likes. *)
Lemma clean_answer_lower (s : string) :
  clean_answer s = clean_answer (PyStr.lower s).
Proof.
  unfold clean_answer.
  rewrite (startswith_lower PyStr.squote), (endswith_lower PyStr.squote),
    (startswith_lower PyStr.dquote), (endswith_lower PyStr.dquote)
    by (unfold PyStr.squote, PyStr.dquote; auto).
  destruct (_ && _).
  - now rewrite slice_1_m1_lower, lower_idem.
  - destruct (_ && _).
    + now rewrite slice_1_m1_lower, lower_idem.
    + now rewrite lower_idem.
Qed.

Lemma clean_answer_wrapped (q : ascii) (body : string) :
  q = PyStr.squote \/ q = PyStr.dquote ->
  clean_answer (String q (body ++ PyStr.str1 q)) = PyStr.lower body.
Proof.
  intros Hq. unfold clean_answer.
  assert (Hs : PyStr.startswith (String q (body ++ PyStr.str1 q))
                                (PyStr.str1 q) = true).
  { unfold PyStr.startswith. rewrite prefix_str1. apply Ascii.eqb_refl. }
  assert (He : PyStr.endswith (String q (body ++ PyStr.str1 q))
                              (PyStr.str1 q) = true).
  { apply (endswith_app_char (String q body) q). }
  assert (Hb : PyStr.slice_1_m1 (String q (body ++ PyStr.str1 q)) = body).
  { simpl. apply drop_last_app_char. }
  destruct Hq as [-> | ->].
  - now rewrite Hs, He, Hb.
  - rewrite Hs, He, Hb.
    assert (Hn : PyStr.startswith
                   (String PyStr.dquote (body ++ PyStr.str1 PyStr.dquote))
                   (PyStr.str1 PyStr.squote) = false).
    { unfold PyStr.startswith. rewrite prefix_str1. reflexivity. }
    now rewrite Hn.
Qed.

Lemma float_of_bool_one (b : bool) : float_of_bool b = 1%Q <-> b = true.
Proof. destruct b; simpl; split; congruence. Qed.

Lemma endswith_app_any (a : string) (d q : ascii) :
  PyStr.endswith (a ++ PyStr.str1 d) (PyStr.str1 q) = Ascii.eqb d q.
Proof.
  unfold PyStr.endswith. rewrite string_length_app.
  change (String.length (PyStr.str1 d)) with 1%nat.
  change (String.length (PyStr.str1 q)) with 1%nat.
  replace (String.length a + 1 - 1)%nat with (String.length a) by lia.
  rewrite drop_app_length.
  replace (1 <=? String.length a + 1)%nat with true
    by (symmetry; apply Nat.leb_le; lia).
  unfold PyStr.str1. simpl. now destruct (Ascii.eqb d q).
Qed.

(** A string of two characters or more between its first and its last
    character: the enclosing pair is removed when both are the single
    quote or both are the double quote, and in no other case. *)
Lemma clean_answer_between (c d : ascii) (body : string) :
  clean_answer (String c (body ++ PyStr.str1 d))
  = if (Ascii.eqb c PyStr.squote && Ascii.eqb d PyStr.squote)
       || (Ascii.eqb c PyStr.dquote && Ascii.eqb d PyStr.dquote)
    then PyStr.lower body
    else PyStr.lower (String c (body ++ PyStr.str1 d)).
Proof.
  unfold clean_answer, PyStr.startswith. rewrite !prefix_str1.
  change (String c (body ++ PyStr.str1 d))
    with (String c body ++ PyStr.str1 d).
  rewrite !endswith_app_any.
  change (PyStr.slice_1_m1 (String c body ++ PyStr.str1 d))
    with (PyStr.drop_last (body ++ PyStr.str1 d)).
  rewrite drop_last_app_char.
  destruct (Ascii.eqb c PyStr.squote && Ascii.eqb d PyStr.squote);
    [reflexivity|].
  destruct (Ascii.eqb c PyStr.dquote && Ascii.eqb d PyStr.dquote);
    reflexivity.
Qed.

(** A string of one character is both the start and the end of itself:
    a lone quote is cleaned to the empty string. *)
Lemma clean_answer_one_char (c : ascii) :
  clean_answer (PyStr.str1 c)
  = if Ascii.eqb c PyStr.squote || Ascii.eqb c PyStr.dquote
    then EmptyString
    else PyStr.str1 (PyStr.lower_char c).
Proof.
  unfold clean_answer, PyStr.startswith. rewrite !prefix_str1.
  change (PyStr.str1 c) with (EmptyString ++ PyStr.str1 c).
  rewrite !endswith_app_any.
  change (EmptyString ++ PyStr.str1 c) with (PyStr.str1 c).
  unfold PyStr.str1 at 1 2 3.
  rewrite !andb_diag.
  destruct (Ascii.eqb c PyStr.squote); [reflexivity|].
  destruct (Ascii.eqb c PyStr.dquote); reflexivity.
Qed.

Lemma string_last (c : ascii) (r : string) :
  exists body d, String c r = body ++ PyStr.str1 d.
Proof.
  revert c. induction r as [|c' r IH]; intros c.
  - now exists EmptyString, c.
  - destruct (IH c') as [body [d Hd]].
    exists (String c body), d. simpl. now rewrite Hd.
Qed.

(** The three shapes of a string: empty, one character, or a first and a
    last character around a body. *)
Lemma string_shape (s : string) :
  s = EmptyString
  \/ (exists c, s = PyStr.str1 c)
  \/ (exists c body d, s = String c (body ++ PyStr.str1 d)).
Proof.
  destruct s as [|c [|c' r]]; auto.
  - right. left. now exists c.
  - right. right. destruct (string_last c' r) as [body [d Hd]].
    exists c, body, d. now rewrite Hd.
Qed.

(** C10.  [exact_match(ref, pred)] is 1.0 exactly when the cleaned strings
    are equal and 0.0 otherwise; [clean_answer] removes one pair of
    enclosing single quotes, or one pair of enclosing double quotes, and
    lowers the rest, so that a quoted body is cleaned to its lowered self
    whatever quotes it holds inside; strings that differ in case only
    match; the quoted and the bare price of the example match.
    [clean_answer] is fixed on every string: the empty string is cleaned
    to itself; a lone quote to the empty string and any other single
    character to its lowered self; a string of two characters or more
    loses its first and its last character when both are the single quote
    or both are the double quote, and is lowered as a whole in every other
    case, in particular when it only starts or only ends with a quote or
    when the two quotes differ.  One layer is removed and no more. *)
Theorem exact_match_cleans_one_quote_layer (ref pred body : string) :
  (exact_match ref pred = 1%Q <-> clean_answer ref = clean_answer pred)
  /\ (exact_match ref pred = 1%Q \/ exact_match ref pred = 0%Q)
  /\ clean_answer (String PyStr.squote (body ++ PyStr.str1 PyStr.squote))
     = PyStr.lower body
  /\ clean_answer (String PyStr.dquote (body ++ PyStr.str1 PyStr.dquote))
     = PyStr.lower body
  /\ (PyStr.lower ref = PyStr.lower pred -> exact_match ref pred = 1%Q)
  /\ exact_match "'$279.49'" "$279.49" = 1%Q
  /\ clean_answer EmptyString = EmptyString
  /\ (forall c : ascii,
         clean_answer (PyStr.str1 c)
         = if Ascii.eqb c PyStr.squote || Ascii.eqb c PyStr.dquote
           then EmptyString
           else PyStr.str1 (PyStr.lower_char c))
  /\ (forall (c d : ascii) (s : string),
         clean_answer (String c (s ++ PyStr.str1 d))
         = if (Ascii.eqb c PyStr.squote && Ascii.eqb d PyStr.squote)
              || (Ascii.eqb c PyStr.dquote && Ascii.eqb d PyStr.dquote)
           then PyStr.lower s
           else PyStr.lower (String c (s ++ PyStr.str1 d)))
  /\ (forall s : string,
         s = EmptyString
         \/ (exists c, s = PyStr.str1 c)
         \/ (exists c b d, s = String c (b ++ PyStr.str1 d)))
  /\ clean_answer (String PyStr.squote (body ++ PyStr.str1 PyStr.dquote))
     = PyStr.lower (String PyStr.squote (body ++ PyStr.str1 PyStr.dquote))
  /\ clean_answer (String PyStr.dquote (body ++ PyStr.str1 PyStr.squote))
     = PyStr.lower (String PyStr.dquote (body ++ PyStr.str1 PyStr.squote))
  /\ clean_answer "abc'" = "abc'"
  /\ clean_answer "'abc" = "'abc"
  /\ clean_answer "''Ab''" = "'ab'"
  /\ exact_match "abc'" "bc" = 0%Q
  /\ exact_match "'abc" "ab" = 0%Q
  /\ exact_match "''a''" "a" = 0%Q.
Proof.
  assert (Hiff : exact_match ref pred = 1%Q
                 <-> clean_answer ref = clean_answer pred).
  { unfold exact_match. rewrite float_of_bool_one, String.eqb_eq.
    split; congruence. }
  refine (conj Hiff (conj _ (conj _ (conj _ (conj _ (conj _ (conj _
            (conj _ (conj _ (conj _ (conj _ (conj _ _)))))))))))).
  - unfold exact_match. destruct (String.eqb _ _); simpl; auto.
  - apply clean_answer_wrapped; auto.
  - apply clean_answer_wrapped; auto.
  - intros Hl. apply Hiff.
    rewrite (clean_answer_lower ref), (clean_answer_lower pred).
    now rewrite Hl.
  - reflexivity.
  - reflexivity.
  - apply clean_answer_one_char.
  - apply clean_answer_between.
  - apply string_shape.
  - now rewrite clean_answer_between.
  - now rewrite clean_answer_between.
  - repeat split.
Qed.

Lemma exact_match_cleans_one_quote_layer_witness :
  PyStr.lower "'N/A'" = PyStr.lower "'n/a'"
  /\ exact_match "'N/A'" "'n/a'" = 1%Q.
Proof.
  split; [reflexivity|].
  exact (proj1 (proj2 (proj2 (proj2 (proj2
           (exact_match_cleans_one_quote_layer "'N/A'" "'n/a'" EmptyString)))))
           eq_refl).
Defined.

End EvaluatorFacts.

Section ProductFacts.
Import BrowserEnv Evaluators.

Lemma product_app (a b : list Q) :
  (product (a ++ b)%list == product a * product b)%Q.
Proof.
  induction a as [|x a IH]; simpl.
  - ring.
  - rewrite IH. ring.
Qed.

Lemma product_unit (scores : list Q) :
  Forall unit_score scores -> unit_score (product scores).
Proof.
  unfold unit_score.
  induction 1 as [|x l [Hx0 Hx1] _ [IH0 IH1]]; simpl.
  - split; discriminate.
  - split; nra.
Qed.

Lemma product_one_iff (scores : list Q) :
  Forall unit_score scores ->
  ((product scores == 1)%Q <-> Forall (fun s => (s == 1)%Q) scores).
Proof.
  induction 1 as [|x l [Hx0 Hx1] Hl IH]; simpl.
  - split; [constructor | reflexivity].
  - destruct (product_unit l Hl) as [Hp0 Hp1]. split.
    + intros Hxp.
      assert (Hx : (x == 1)%Q) by nra.
      constructor; [exact Hx|]. apply IH. rewrite Hx in Hxp. nra.
    + intros Hall. inversion Hall as [|? ? Hx Hrest]; subst.
      apply IH in Hrest. rewrite Hx, Hrest. ring.
Qed.

Lemma product_zero (scores : list Q) :
  Exists (fun s => (s == 0)%Q) scores -> (product scores == 0)%Q.
Proof.
  induction 1 as [x l Hx | x l _ IH]; simpl.
  - rewrite Hx. ring.
  - rewrite IH. ring.
Qed.

Lemma scale_all_product (f : string -> Q) (l : list string) (score : Q) :
  (scale_all f l score == score * product (map f l))%Q.
Proof.
  unfold scale_all. revert score.
  induction l as [|v l IH]; intros score; simpl.
  - ring.
  - rewrite IH. ring.
Qed.

Lemma comb_loop_product (evaluators : list Evaluator)
    (trajectory : Trajectory) (configs : Config) (scores : list Q) :
  Forall2 (fun ev s => ev trajectory configs = Ok s) evaluators scores ->
  forall score0, exists score,
    comb_loop evaluators trajectory configs score0 = Ok score
    /\ (score == score0 * product scores)%Q.
Proof.
  induction 1 as [|ev s evs ss Hev _ IH]; intros score0; simpl.
  - exists score0. split; [reflexivity | ring].
  - rewrite Hev. simpl.
    destruct (IH (score0 * s)%Q) as (score & Hrun & Heq).
    exists score. split; [exact Hrun|]. rewrite Heq. ring.
Qed.

Context `{Judges}.

Lemma string_step_product (cfg : Config) (pred : string) (score0 : Q)
    (item : string * RefValue) :
  well_formed_item item = true ->
  exists score,
    string_step cfg pred score0 item = Ok score
    /\ (score == score0 * product (criteria_of cfg pred item))%Q.
Proof.
  destruct item as [approach [v | l]]; unfold string_step, criteria_of;
    simpl; intros Hwf.
  - apply andb_true_iff in Hwf as [Hm Hf].
    apply negb_true_iff in Hm, Hf. rewrite Hm, Hf.
    destruct (String.eqb approach "exact_match"); eexists;
      (split; [reflexivity | simpl; ring]).
  - apply negb_true_iff in Hwf. rewrite Hwf.
    destruct (String.eqb approach "must_include");
      [|destruct (String.eqb approach "fuzzy_match")];
      eexists; (split; [reflexivity|]);
      rewrite ?scale_all_product; simpl; ring.
Qed.

Lemma string_loop_product (cfg : Config) (pred : string)
    (items : list (string * RefValue)) :
  forallb well_formed_item items = true ->
  forall score0, exists score,
    string_loop cfg pred items score0 = Ok score
    /\ (score == score0 * product (flat_map (criteria_of cfg pred) items))%Q.
Proof.
  induction items as [|item items IH]; simpl; intros Hwf score0.
  - exists score0. split; [reflexivity | ring].
  - apply andb_true_iff in Hwf as [Hitem Hrest].
    destruct (string_step_product cfg pred score0 item Hitem)
      as (s1 & Hstep & Hs1).
    rewrite Hstep. simpl.
    destruct (IH Hrest s1) as (score & Hrun & Heq).
    exists score. split; [exact Hrun|].
    rewrite Heq, Hs1, product_app. ring.
Qed.

Lemma get_last_action_snoc (t : Trajectory) (e : TrajElem) :
  get_last_action (t ++ [e])%list = Ok e.
Proof. unfold get_last_action. now rewrite rev_unit. Qed.

(** C9.  The combined evaluator multiplies the scores of its
    sub-evaluators: when they score [scores], it returns their product;
    for scores between 0.0 and 1.0 the product is 1.0 exactly when every
    score is 1.0, and it is 0.0 as soon as one score is 0.0.  Likewise
    the string evaluator returns the product of the scores of all its
    exact_match, must_include and fuzzy_match criteria on the cleaned
    answer of the trajectory's last action. *)
Theorem evaluator_scores_multiply
    (evaluators : list Evaluator) (trajectory : Trajectory)
    (configs : Config) (scores : list Q) (a : Action) :
  (Forall2 (fun ev s => ev trajectory configs = Ok s) evaluators scores ->
   exists score,
     EvaluatorComb_call evaluators trajectory configs = Ok score
     /\ (score == product scores)%Q
     /\ (Forall unit_score scores ->
         ((score == 1)%Q <-> Forall (fun s => (s == 1)%Q) scores))
     /\ (Exists (fun s => (s == 0)%Q) scores -> (score == 0)%Q))
  /\ (well_formed configs = true ->
      exists score,
        StringEvaluator_call (trajectory ++ [Ac a])%list configs = Ok score
        /\ (score == product (criteria configs (clean_answer (answer a))))%Q
        /\ (Exists (fun s => (s == 0)%Q)
                   (criteria configs (clean_answer (answer a))) ->
            (score == 0)%Q)).
Proof.
  split.
  - intros Hall.
    destruct (comb_loop_product evaluators trajectory configs scores Hall 1%Q)
      as (score & Hrun & Heq).
    assert (Hp : (score == product scores)%Q) by (rewrite Heq; ring).
    exists score. repeat split.
    + exact Hrun.
    + exact Hp.
    + rewrite Hp. now apply product_one_iff.
    + rewrite Hp. now apply product_one_iff.
    + intros Hex. rewrite Hp. now apply product_zero.
  - intros Hwf. unfold StringEvaluator_call.
    rewrite get_last_action_snoc. simpl.
    destruct (string_loop_product configs (clean_answer (answer a))
                (reference_answers configs) Hwf 1%Q) as (score & Hrun & Heq).
    assert (Hp : (score
                  == product (criteria configs (clean_answer (answer a))))%Q)
      by (rewrite Heq; unfold criteria; ring).
    exists score. split; [exact Hrun|]. split; [exact Hp|].
    intros Hex. rewrite Hp. now apply product_zero.
Qed.

End ProductFacts.

Section EvaluatorRuns.
Import BrowserEnv Evaluators Samples.

(** The price example: a STOP action that answers the reference price
    scores 1.0, another answer scores 0.0. *)
Example string_evaluator_price :
  string_evaluator [St s0; Ac (create_stop_action "$279.49")] price_config
  = Ok 1%Q
  /\ string_evaluator [St s0; Ac (create_stop_action "$20")] price_config
     = Ok 0%Q.
Proof. split; reflexivity. Qed.

(** The evaluator reads the answer of the last element; a trajectory that
    ends with a state has none. *)
Example string_evaluator_on_final_state :
  string_evaluator [St s0; Ac (create_stop_action "$279.49"); St s1]
                   price_config
  = Raise KeyError.
Proof. reflexivity. Qed.

Lemma evaluator_scores_multiply_witness :
  let stop := create_stop_action "$279.49" in
  well_formed price_config = true
  /\ exists score,
       EvaluatorComb_call [string_evaluator; passing_evaluator]
                          [St s0; Ac stop] price_config = Ok score
       /\ (score == 1)%Q.
Proof.
  cbv zeta. split; [reflexivity|].
  assert (Hall : Forall2
            (fun ev s =>
               ev [St s0; Ac (create_stop_action "$279.49")] price_config
               = Ok s)
            [string_evaluator; passing_evaluator] [1%Q; 1%Q]).
  { constructor; [reflexivity|]. constructor; [reflexivity|]. constructor. }
  destruct (proj1 (@evaluator_scores_multiply sample_judges
                     [string_evaluator; passing_evaluator]
                     [St s0; Ac (create_stop_action "$279.49")] price_config
                     [1%Q; 1%Q] (create_stop_action "$279.49")) Hall)
    as (score & Hrun & Hp & _).
  exists score. split; [exact Hrun|].
  exact (Qeq_trans _ _ _ Hp (eq_refl : (product [1; 1] == 1)%Q)).
Defined.

End EvaluatorRuns.

(** ** The early-stop monitor *)

Section EarlyStopFacts.
Import BrowserEnv EarlyStop.
Context `{Actions}.

Lemma bind_Ok {A B : Type} (a : A) (f : A -> result B) : bind (Ok a) f = f a.
Proof. reflexivity. Qed.

Lemma len_map {A B : Type} (f : A -> B) (l : list A) : len (map f l) = len l.
Proof. unfold len. now rewrite length_map. Qed.

Lemma slice_last_map {A B : Type} (f : A -> B) (k : Z) (l : list A) :
  slice_last k (map f l) = map f (slice_last k l).
Proof.
  unfold slice_last. rewrite length_map.
  destruct (0 <? k)%Z; now rewrite skipn_map.
Qed.

Lemma slice_last_pos {A : Type} (k : Z) (l : list A) :
  (1 <= k)%Z -> slice_last k l = lastn (Z.to_nat k) l.
Proof.
  intros Hk. unfold slice_last, lastn.
  destruct (Z.ltb_spec 0 k); [reflexivity | lia].
Qed.

Lemma len_lastn_enough {A : Type} (k : Z) (l : list A) :
  (1 <= k)%Z ->
  (k <=? len (lastn (Z.to_nat k) l))%Z = (k <=? len l)%Z.
Proof.
  intros Hk. unfold lastn, len. rewrite length_skipn.
  destruct (Z.leb_spec k (Z.of_nat (List.length l)));
    [apply Z.leb_le | apply Z.leb_gt]; lia.
Qed.

Lemma last_elem_snoc {A : Type} (l : list A) (a : A) :
  last_elem (l ++ [a])%list = Some a.
Proof. unfold last_elem. now rewrite rev_unit. Qed.

Lemma last_elem_map {A B : Type} (f : A -> B) (l : list A) :
  last_elem (map f l) = option_map f (last_elem l).
Proof.
  unfold last_elem. rewrite <- map_rev. now destruct (rev l).
Qed.

Lemma mapM_action_types (l : list Action) :
  mapM get_action_type (map Ac l) = Ok (map action_type l).
Proof. induction l as [|a l IH]; simpl; [|rewrite IH]; reflexivity. Qed.

Lemma mapM_equivalent (a : Action) (l : list Action) :
  mapM (fun e => is_equivalent_elem e (Ac a)) (map Ac l)
  = Ok (map (fun x => is_equivalent x a) l).
Proof. induction l as [|b l IH]; simpl; [|rewrite IH]; reflexivity. Qed.

Lemma forallb_map {A B : Type} (f : A -> B) (p : B -> bool) (l : list A) :
  forallb p (map f l) = forallb (fun x => p (f x)) l.
Proof. induction l as [|a l IH]; simpl; [|rewrite IH]; reflexivity. Qed.

Lemma count_true_map (a : Action) (l : list Action) :
  count_true (map (fun x => is_equivalent x a) l) = count_equivalent a l.
Proof.
  unfold count_true, count_equivalent. f_equal.
  induction l as [|b l IH]; simpl; auto.
  destruct (is_equivalent b a); simpl; now rewrite IH.
Qed.

Lemma below_max_steps (trajectory : Trajectory) (max_steps : Z) :
  (num_steps trajectory < inject_Z max_steps)%Q ->
  Qle_bool (inject_Z max_steps) (num_steps trajectory) = false.
Proof.
  intros Hlt. destruct (Qle_bool _ _) eqn:E; auto.
  apply Qle_bool_iff in E. exfalso. now apply (Qlt_not_le _ _ Hlt).
Qed.

(** Below the step limit and with actions at the odd indices, the monitor
    answers with the parse-failure reason when the source's test on the
    last actions succeeds and with the verdict of the repetition rule
    otherwise. *)
Lemma early_stop_on_actions (trajectory : Trajectory) (max_steps : Z)
    (th : Thresholds) (acts : list Action) :
  (num_steps trajectory < inject_Z max_steps)%Q ->
  slice_1_2 trajectory = map Ac acts ->
  early_stop trajectory max_steps th =
  Ok (let k := parsing_failure th in
      if (k <=? len (slice_last k acts))%Z
         && forallb is_none (slice_last k acts)
      then (true,
            "Failed to parse actions for " ++ PyStr.str_of_int k ++ " times")
      else repetition_verdict (repeating_action th) acts).
Proof.
  intros Hlt Hacts. unfold early_stop.
  rewrite (below_max_steps _ _ Hlt), Hacts.
  rewrite !slice_last_map, !len_map, mapM_action_types.
  cbv zeta.
  assert (Hpf : (if (parsing_failure th
                     <=? len (slice_last (parsing_failure th) acts))%Z
                 then tys <- Ok (map action_type
                                   (slice_last (parsing_failure th) acts)) ;;
                      Ok (forallb (fun t => ActionTypes_eqb t NONE) tys)
                 else Ok false)
                = Ok ((parsing_failure th
                       <=? len (slice_last (parsing_failure th) acts))%Z
                      && forallb is_none
                           (slice_last (parsing_failure th) acts))).
  { destruct (_ <=? _)%Z; [|reflexivity].
    rewrite bind_Ok, forallb_map. reflexivity. }
  rewrite Hpf; clear Hpf. rewrite bind_Ok.
  destruct (_ && _); [reflexivity|].
  unfold repetition_verdict. rewrite last_elem_map.
  destruct (last_elem acts) as [a|]; [|reflexivity].
  cbn [option_map get_action_type]. rewrite bind_Ok, !mapM_equivalent.
  destruct (negb (ActionTypes_eqb (action_type a) TYPE)).
  - destruct (_ <=? _)%Z.
    + rewrite !bind_Ok, forallb_map, andb_true_l.
      now destruct (forallb _ _).
    + now rewrite bind_Ok.
  - rewrite bind_Ok, count_true_map. now destruct (_ <=? _)%Z.
Qed.

Lemma parse_failure_fires_slice (k : Z) (acts : list Action) :
  (1 <= k)%Z ->
  (k <=? len (slice_last k acts))%Z && forallb is_none (slice_last k acts)
  = parse_failure_fires k acts.
Proof.
  intros Hk. unfold parse_failure_fires.
  now rewrite slice_last_pos, len_lastn_enough.
Qed.

Lemma last_k_repeat_slice (k : Z) (a : Action) (acts : list Action) :
  (1 <= k)%Z ->
  (k <=? len (slice_last k acts))%Z
  && forallb (fun x => is_equivalent x a) (slice_last k acts)
  = last_k_repeat k a acts.
Proof.
  intros Hk. unfold last_k_repeat.
  now rewrite slice_last_pos, len_lastn_enough.
Qed.

(** C6.  Once [(len(trajectory) - 1) / 2 >= max_steps], the monitor
    returns [(True, "Reach max steps {max_steps}")] whatever the
    trajectory holds and whatever the thresholds are; in particular a
    trajectory of 11 elements (5 completed steps) with [max_steps = 5]
    gives [(True, "Reach max steps 5")]. *)
Theorem early_stop_reach_max_steps (trajectory : Trajectory) (max_steps : Z)
    (th : Thresholds) :
  ((inject_Z max_steps <= num_steps trajectory)%Q ->
   early_stop trajectory max_steps th
   = Ok (true, "Reach max steps " ++ PyStr.str_of_int max_steps))
  /\ (List.length trajectory = 11%nat ->
      early_stop trajectory 5 th = Ok (true, "Reach max steps 5")).
Proof.
  split.
  - intros Hle. unfold early_stop.
    apply Qle_bool_iff in Hle. now rewrite Hle.
  - intros Hlen. unfold early_stop, num_steps, len. now rewrite Hlen.
Qed.

End EarlyStopFacts.

Section EarlyStopRules.
Import BrowserEnv EarlyStop.
Context `{Actions}.

Lemma lastn_snoc {A : Type} (n : nat) (l : list A) (a : A) :
  (1 <= n)%nat -> lastn n (l ++ [a])%list = (lastn (n - 1) l ++ [a])%list.
Proof.
  intros Hn. unfold lastn. rewrite List.length_app, skipn_app. simpl List.length.
  replace (List.length l + 1 - n)%nat with (List.length l - (n - 1))%nat by lia.
  replace (List.length l - (n - 1) - List.length l)%nat with 0%nat by lia.
  reflexivity.
Qed.

(** A type action at the end keeps the parse-failure rule silent. *)
Lemma parse_failure_silent_after_type (k : Z) (acts : list Action)
    (a : Action) :
  (1 <= k)%Z -> action_type a = TYPE ->
  parse_failure_fires k (acts ++ [a])%list = false.
Proof.
  intros Hk Ha. unfold parse_failure_fires.
  rewrite lastn_snoc by lia. rewrite forallb_app. simpl.
  unfold is_none at 2. rewrite Ha. simpl.
  now rewrite andb_false_r, andb_false_r.
Qed.

Lemma repetition_verdict_silent (k : Z) (acts : list Action) :
  fst (repetition_verdict k acts) = false ->
  repetition_verdict k acts = (false, EmptyString).
Proof.
  unfold repetition_verdict.
  destruct (last_elem acts) as [a|]; [|reflexivity].
  destruct (negb _).
  - destruct (_ && _); [discriminate | reflexivity].
  - destruct (_ <=? _)%Z; [discriminate | reflexivity].
Qed.

(** C4, amended.  Below the step limit, with a non-empty sequence of
    actions whose most recent one is [a], a parse-failure threshold of at
    least 1 and [k] the repetition threshold: if [a] is a type action, the
    monitor stops exactly when the number of actions of the whole history
    equivalent to [a] reaches [k]; if [a] is not a type action, [k] is at
    least 1 and the parse-failure rule does not fire, the monitor stops
    exactly when at least [k] actions exist and the last [k] are all
    equivalent to [a]. *)
Theorem early_stop_repetition_rule (trajectory : Trajectory) (max_steps : Z)
    (th : Thresholds) (acts : list Action) (a : Action) :
  (num_steps trajectory < inject_Z max_steps)%Q ->
  slice_1_2 trajectory = map Ac (acts ++ [a])%list ->
  (1 <= parsing_failure th)%Z ->
  let k := repeating_action th in
  (action_type a <> TYPE ->
   (1 <= k)%Z ->
   parse_failure_fires (parsing_failure th) (acts ++ [a])%list = false ->
   early_stop trajectory max_steps th
   = Ok (if last_k_repeat k a (acts ++ [a])%list
         then (true, "Same action for " ++ PyStr.str_of_int k ++ " times")
         else (false, EmptyString)))
  /\ (action_type a = TYPE ->
      early_stop trajectory max_steps th
      = Ok (if (k <=? count_equivalent a (acts ++ [a])%list)%Z
            then (true,
                  "Same typing action for " ++ PyStr.str_of_int k ++ " times")
            else (false, EmptyString))).
Proof.
  intros Hlt Hacts Hkp k.
  pose proof (early_stop_on_actions trajectory max_steps th _ Hlt Hacts)
    as Hes.
  cbv zeta in Hes. rewrite parse_failure_fires_slice in Hes by assumption.
  split.
  - intros Hty Hk Hsilent. rewrite Hes, Hsilent.
    unfold repetition_verdict. rewrite last_elem_snoc.
    destruct (ActionTypes_eqb (action_type a) TYPE) eqn:E.
    + destruct (action_type a); discriminate || congruence.
    + cbn [negb]. fold k. now rewrite last_k_repeat_slice.
  - intros Hty.
    rewrite Hes, (parse_failure_silent_after_type _ _ _ Hkp Hty).
    unfold repetition_verdict. rewrite last_elem_snoc, Hty.
    reflexivity.
Qed.

(** C5, amended.  Below the step limit and with [k], the parse-failure
    threshold, at least 1: if at least [k] actions exist and the last [k]
    are all the none sentinel, the monitor returns [True] with the
    parse-failure reason, which mentions [k]; if one of the last [k]
    actions is not the none sentinel, the parse-failure rule is silent
    and the monitor answers what the repetition rule answers, which is
    [False] with an empty reason unless the most recent action repeats. *)
Theorem early_stop_parse_failure_rule (trajectory : Trajectory)
    (max_steps : Z) (th : Thresholds) (acts : list Action) :
  (num_steps trajectory < inject_Z max_steps)%Q ->
  slice_1_2 trajectory = map Ac acts ->
  let k := parsing_failure th in
  (1 <= k)%Z ->
  ((k <= len acts)%Z ->
   forallb is_none (lastn (Z.to_nat k) acts) = true ->
   early_stop trajectory max_steps th
   = Ok (true,
         "Failed to parse actions for " ++ PyStr.str_of_int k ++ " times"))
  /\ (forall a, In a (lastn (Z.to_nat k) acts) -> is_none a = false ->
      early_stop trajectory max_steps th
      = Ok (repetition_verdict (repeating_action th) acts)
      /\ (fst (repetition_verdict (repeating_action th) acts) = false ->
          early_stop trajectory max_steps th = Ok (false, EmptyString))).
Proof.
  intros Hlt Hacts k Hk.
  pose proof (early_stop_on_actions trajectory max_steps th _ Hlt Hacts)
    as Hes.
  cbv zeta in Hes. rewrite parse_failure_fires_slice in Hes by assumption.
  fold k in Hes. split.
  - intros Hlen Hall. rewrite Hes. unfold parse_failure_fires.
    rewrite Hall. apply Z.leb_le in Hlen. now rewrite Hlen.
  - intros a Hin Ha.
    assert (Hsilent : parse_failure_fires k acts = false).
    { unfold parse_failure_fires. apply andb_false_iff. right.
      destruct (forallb _ _) eqn:E; [|reflexivity].
      rewrite forallb_forall in E. specialize (E a Hin). congruence. }
    rewrite Hes, Hsilent. split; [reflexivity|].
    intros Hquiet. now rewrite repetition_verdict_silent.
Qed.

End EarlyStopRules.

Section EarlyStopRuns.
Import BrowserEnv EarlyStop Samples.

Example early_stop_initial_state :
  early_stop [St s0] 30 th33 = Ok (false, EmptyString).
Proof. reflexivity. Qed.

(** A state at an odd index makes the monitor fail on the missing key. *)
Example early_stop_on_misplaced_state :
  early_stop [St s0; St s1; St s0] 30 (mkThresholds 1 3) = Raise KeyError.
Proof. reflexivity. Qed.

Lemma early_stop_reach_max_steps_witness :
  let c := click "1" in
  let trajectory := trajectory_of s0 [c; c; c; c; c] in
  (inject_Z 5 <= num_steps trajectory)%Q
  /\ early_stop trajectory 5 th33 = Ok (true, "Reach max steps 5").
Proof.
  cbv zeta.
  assert (Hle : (inject_Z 5
                 <= num_steps (trajectory_of s0
                      [click "1"; click "1"; click "1"; click "1";
                       click "1"]))%Q)
    by (vm_compute; discriminate).
  split; [exact Hle|].
  exact (proj1 (early_stop_reach_max_steps _ 5 th33) Hle).
Defined.

(** C4, as stated, fails.  With [parsing_failure_th = 2] and
    [repeating_action_failure_th = 3], three actions of which the last two
    are the none sentinel stop the monitor by the parse-failure rule,
    although the most recent action is not a type action and the last
    three actions are not all equivalent to it.  And with a repetition
    threshold of 0 the monitor does not stop on two different clicks,
    although the last 0 actions are all equivalent to the most recent
    one. *)
Lemma early_stop_repetition_counterexample :
  let none := create_none_action in
  let acts := [click "1"; none; none] in
  let trajectory := trajectory_of s0 acts in
  let acts0 := [click "1"; click "2"] in
  (num_steps trajectory < inject_Z 30)%Q
  /\ slice_1_2 trajectory = map Ac acts
  /\ last_elem acts = Some none
  /\ action_type none <> TYPE
  /\ early_stop trajectory 30 (mkThresholds 2 3)
     = Ok (true, "Failed to parse actions for 2 times")
  /\ last_k_repeat 3 none acts = false
  /\ early_stop (trajectory_of s0 acts0) 30 (mkThresholds 3 0)
     = Ok (false, EmptyString)
  /\ last_k_repeat 0 (click "2") acts0 = true.
Proof.
  cbv zeta.
  split; [reflexivity|].
  split; [reflexivity|].
  split; [reflexivity|].
  split; [discriminate|].
  split; [reflexivity|].
  split; [reflexivity|].
  split; reflexivity.
Qed.

Lemma early_stop_repetition_rule_witness :
  let c := click "1" in
  let trajectory := trajectory_of s0 [c; c; c] in
  (num_steps trajectory < inject_Z 30)%Q
  /\ parse_failure_fires 3 [c; c; c] = false
  /\ early_stop trajectory 30 th33 = Ok (true, "Same action for 3 times").
Proof.
  cbv zeta.
  assert (Hlt : (num_steps (trajectory_of s0
                   [click "1"; click "1"; click "1"]) < inject_Z 30)%Q)
    by reflexivity.
  split; [exact Hlt|]. split; [reflexivity|].
  refine (proj1 (early_stop_repetition_rule
                   (trajectory_of s0 [click "1"; click "1"; click "1"])
                   30 th33 [click "1"; click "1"] (click "1")
                   Hlt eq_refl _) _ _ eq_refl).
  - vm_compute; discriminate.
  - discriminate.
  - vm_compute; discriminate.
Defined.

(** C5, as stated, fails.  With both thresholds at 3, the actions type,
    type, none, none, none stop the monitor by the parse-failure rule;
    when the last of them is made the valid type action again, all else
    equal, the monitor still stops, now because that typing action occurs
    three times in the history.  And with a parse-failure threshold of 0
    the monitor does not stop on a single click, although the last 0
    actions are all the none sentinel. *)
Lemma early_stop_parse_failure_counterexample :
  let none := create_none_action in
  let t := type_into "7" "hello" in
  let before := [t; t; none; none; none] in
  let after := [t; t; none; none; t] in
  early_stop (trajectory_of s0 before) 30 th33
  = Ok (true, "Failed to parse actions for 3 times")
  /\ lastn 3 after = [none; none; t]
  /\ is_none t = false
  /\ early_stop (trajectory_of s0 after) 30 th33
     = Ok (true, "Same typing action for 3 times")
  /\ forallb is_none (lastn 0 [click "1"]) = true
  /\ early_stop (trajectory_of s0 [click "1"]) 30 (mkThresholds 0 3)
     = Ok (false, EmptyString).
Proof.
  cbv zeta.
  split; [reflexivity|].
  split; [reflexivity|].
  split; [reflexivity|].
  split; [reflexivity|].
  split; reflexivity.
Qed.

Lemma early_stop_parse_failure_rule_witness :
  let none := create_none_action in
  let acts := [click "1"; none; none; none] in
  forallb is_none (lastn 3 acts) = true
  /\ early_stop (trajectory_of s0 acts) 30 th33
     = Ok (true, "Failed to parse actions for 3 times").
Proof.
  cbv zeta. split; [reflexivity|].
  refine (proj1 (early_stop_parse_failure_rule
                   (trajectory_of s0
                      [click "1"; create_none_action; create_none_action;
                       create_none_action])
                   30 th33
                   [click "1"; create_none_action; create_none_action;
                    create_none_action] _ eq_refl _) _ eq_refl).
  - reflexivity.
  - vm_compute; discriminate.
  - vm_compute; discriminate.
Defined.

End EarlyStopRuns.

(** ** The parsers of the prompt constructors *)

Section RegexFacts.
Import Re.

Lemma strip_prefix_prefix (l s : string) :
  String.prefix l s = false -> strip_prefix l s = None.
Proof.
  revert s; induction l as [|a l IH]; intros [|b s]; simpl;
    try discriminate; auto.
  destruct (ascii_dec a b) as [->|Hne].
  - rewrite Ascii.eqb_refl. apply IH.
  - intros _. apply Ascii.eqb_neq in Hne. now rewrite Hne.
Qed.

Lemma occurs_false (l s : string) :
  PyStr.occurs l s = false ->
  String.prefix l s = false
  /\ match s with
     | EmptyString => True
     | String _ r => PyStr.occurs l r = false
     end.
Proof.
  destruct s as [|c r]; simpl; intros Hocc;
    apply orb_false_iff in Hocc as [Hp Hr]; auto.
Qed.

(** A pattern that begins with a literal finds nothing in a text in which
    the literal does not occur. *)
Lemma search_literal_absent (l : string) (p : pattern) (s : string) :
  PyStr.occurs l s = false -> search (Lit l :: p) s = None.
Proof.
  induction s as [|c r IH]; intros Hocc;
    destruct (occurs_false _ _ Hocc) as [Hp Hr]; simpl;
    rewrite (strip_prefix_prefix _ _ Hp); auto.
Qed.

(** Where [search] finds nothing, [finditer] yields nothing. *)
Lemma finditer_no_match (p : pattern) (s : string) :
  search p s = None -> finditer p s = [].
Proof.
  unfold finditer. induction s as [|c r IH]; simpl.
  - now destruct (match_here p EmptyString) as [[caps rest]|].
  - destruct (match_here p (String c r)) as [[caps rest]|];
      [discriminate | exact IH].
Qed.

Lemma prefix_app_l (a b s : string) :
  String.prefix (a ++ b) s = true -> String.prefix a s = true.
Proof.
  revert s; induction a as [|x a IH]; intros [|y s]; simpl; auto.
  destruct (ascii_dec x y); auto.
Qed.

(** A text without a marker is without any extension of the marker. *)
Lemma occurs_app_l (a b s : string) :
  PyStr.occurs a s = false -> PyStr.occurs (a ++ b) s = false.
Proof.
  induction s as [|c r IH]; intros Hocc;
    destruct (occurs_false _ _ Hocc) as [Hp Hr].
  - change (String.prefix (a ++ b) EmptyString || false = false).
    rewrite orb_false_r.
    destruct (String.prefix (a ++ b) EmptyString) eqn:E; auto.
    apply prefix_app_l in E. congruence.
  - change (String.prefix (a ++ b) (String c r)
            || PyStr.occurs (a ++ b) r = false).
    rewrite (IH Hr), orb_false_r.
    destruct (String.prefix (a ++ b) (String c r)) eqn:E; auto.
    apply prefix_app_l in E. congruence.
Qed.

End RegexFacts.

Section ParserFacts.
Import BrowserEnv PromptConstructor Agent.

Example extract_action_ex :
  _extract_action (mk "```" [])
    "In summary, the next action I will perform is ```click [42]```"
  = Ok "click [42]".
Proof. reflexivity. Qed.

Example parse_local_plan_ex :
  parse_local_plan
    ("**Action 1:** click [3] " ++ PyStr.str1 PyStr.newline
     ++ "**Action 2:** stop [done]" ++ PyStr.str1 PyStr.newline)
  = [mkActionInfo "1" "click [3]"; mkActionInfo "2" "stop [done]"].
Proof. reflexivity. Qed.

Example parse_decide_result_ex :
  parse_decide_result
    ("Decision: Replan " ++ PyStr.str1 PyStr.newline ++ "Reasons: stuck ")
  = mkDecideResult (Some "replan") (Some "stuck").
Proof. reflexivity. Qed.

(** A present but empty Reasons field is the empty string, not the absent
    marker. *)
Example parse_decide_result_empty_reasons :
  parse_decide_result "Reasons: " = mkDecideResult None (Some EmptyString).
Proof. reflexivity. Qed.

Lemma extract_action_no_match (pc : PromptConstructor.t) (text : string) :
  Re.search (action_pattern_of (action_splitter pc)) text = None ->
  extract_action pc text = Raise ActionParsingError.
Proof.
  intros Hs. unfold extract_action, _extract_action. now rewrite Hs.
Qed.

(** C7.  When the splitter does not occur in the text, or more generally
    when no pair of splitters on one line encloses an action, and when the
    enclosed action is rejected by the sub-parser of the agent's action set
    with a parse error, [next_action] returns normally; what it returns is
    the none sentinel with the text itself, unchanged, in
    [raw_prediction]. *)
Theorem next_action_none_on_parse_error `{Actions} (self : LocalAgent)
    (text : string) :
  let pc := prompt_constructor self in
  let none := set_raw_prediction create_none_action text in
  (PyStr.occurs (action_splitter pc) text = false ->
   next_action self text = Ok none)
  /\ (Re.search (action_pattern_of (action_splitter pc)) text = None ->
      next_action self text = Ok none)
  /\ (forall parsed,
         extract_action pc text = Ok parsed ->
         (action_set_tag self = "id_accessibility_tree"
          /\ create_id_based_action parsed = Raise ActionParsingError)
         \/ (action_set_tag self = "playwright"
             /\ create_playwright_action parsed = Raise ActionParsingError) ->
         next_action self text = Ok none)
  /\ action_type none = NONE
  /\ raw_prediction none = text.
Proof.
  intros pc none.
  assert (Hnomatch :
            Re.search (action_pattern_of (action_splitter pc)) text = None ->
            next_action self text = Ok none).
  { intros Hs. unfold next_action. fold pc.
    now rewrite (extract_action_no_match pc text Hs). }
  refine (conj _ (conj Hnomatch (conj _ (conj eq_refl eq_refl)))).
  - intros Hocc. apply Hnomatch.
    now apply search_literal_absent.
  - intros parsed Hex [[Htag Herr] | [Htag Herr]];
      unfold next_action; fold pc; rewrite Hex, Htag; cbn [bind String.eqb];
      simpl String.eqb; now rewrite Herr.
Qed.

(** C8.  The plan parsers are total functions: they return a list or a
    record on every text.  A text in which no subtask block (no action
    line) is found, in particular one that lacks the opening marker, gives
    the empty list; a text without the Reasons, Decision or Result marker
    gives a record whose field is [None], the absent marker, which is not
    the empty string. *)
Theorem plan_parsers_absent_fields (text : string) :
  (Re.search subtask_pattern text = None -> parse_global_plan text = [])
  /\ (Re.search action_pattern text = None -> parse_local_plan text = [])
  /\ (PyStr.occurs "**Subtask " text = false -> parse_global_plan text = [])
  /\ (PyStr.occurs "**Action " text = false -> parse_local_plan text = [])
  /\ (PyStr.occurs "Reasons:" text = false ->
      Decision_Reasons (parse_decide_result text) = None
      /\ Check_Reasons (parse_check_result text) = None)
  /\ (PyStr.occurs "Decision:" text = false ->
      Decision (parse_decide_result text) = None)
  /\ (PyStr.occurs "Result:" text = false ->
      Result (parse_check_result text) = None)
  /\ (None : option string) <> Some EmptyString.
Proof.
  assert (Hg : Re.search subtask_pattern text = None ->
               parse_global_plan text = []).
  { intros Hs. unfold parse_global_plan.
    now rewrite (finditer_no_match _ _ Hs). }
  assert (Hl : Re.search action_pattern text = None ->
               parse_local_plan text = []).
  { intros Hs. unfold parse_local_plan.
    now rewrite (finditer_no_match _ _ Hs). }
  assert (Hmarker : forall marker rest,
             PyStr.occurs marker text = false ->
             Re.search (Re.Lit (marker ++ " ") :: rest) text = None).
  { intros marker rest Hocc. apply search_literal_absent.
    now apply occurs_app_l. }
  refine (conj Hg (conj Hl (conj _ (conj _ (conj _ (conj _ (conj _ _))))))).
  - intros Hocc. apply Hg. now apply search_literal_absent.
  - intros Hocc. apply Hl. now apply search_literal_absent.
  - intros Hocc. unfold parse_decide_result, parse_check_result.
    cbn [Decision_Reasons Check_Reasons].
    unfold reasons_pattern, tail_pattern.
    change "Reasons: " with ("Reasons:" ++ " ").
    now rewrite (Hmarker _ _ Hocc).
  - intros Hocc. unfold parse_decide_result. cbn [Decision].
    unfold decision_pattern, line_pattern.
    change "Decision: " with ("Decision:" ++ " ").
    now rewrite (Hmarker _ _ Hocc).
  - intros Hocc. unfold parse_check_result. cbn [Result].
    unfold result_pattern, line_pattern.
    change "Result: " with ("Result:" ++ " ").
    now rewrite (Hmarker _ _ Hocc).
  - discriminate.
Qed.

End ParserFacts.

Section ParserRuns.
Import BrowserEnv PromptConstructor Agent Samples.

Example next_action_click :
  next_action id_agent "Next I will ```click [42]```"
  = Ok (set_raw_prediction (click "42") "Next I will ```click [42]```").
Proof. reflexivity. Qed.

Example next_action_unknown_verb :
  next_action id_agent "Next I will ```jump [42]```"
  = Ok (set_raw_prediction create_none_action "Next I will ```jump [42]```").
Proof. reflexivity. Qed.

(** An unknown action set is not a parse error and is not caught. *)
Example next_action_unknown_action_set :
  next_action (mkLocalAgent "mouse" (mk "```" [])) "```click [42]```"
  = Raise ValueError.
Proof. reflexivity. Qed.

Lemma next_action_none_on_parse_error_witness :
  let text := "I will click the button [42]" in
  PyStr.occurs "```" text = false
  /\ next_action id_agent text
     = Ok (set_raw_prediction create_none_action text)
  /\ raw_prediction (set_raw_prediction create_none_action text) = text.
Proof.
  cbv zeta. split; [reflexivity|]. split.
  - exact (proj1 (next_action_none_on_parse_error id_agent
                    "I will click the button [42]") eq_refl).
  - reflexivity.
Defined.

Lemma plan_parsers_absent_fields_witness :
  let text := "Decision: replan" ++ PyStr.str1 PyStr.newline in
  PyStr.occurs "Reasons:" text = false
  /\ parse_decide_result text = mkDecideResult (Some "replan") None
  /\ Decision_Reasons (parse_decide_result text) = None.
Proof.
  cbv zeta. split; [reflexivity|]. split; [reflexivity|].
  exact (proj1
           (proj1 (proj2 (proj2 (proj2 (proj2
              (plan_parsers_absent_fields
                 ("Decision: replan" ++ PyStr.str1 PyStr.newline))))))
            eq_refl)).
Defined.

End ParserRuns.

(** ** The control loop *)

Section ScopeFacts.
Import TestPlan.

(** The names that the loop tests at line 249 and formats at line 250 are
    assigned at line 324, inside [execute_local_plan]: they are locals of
    that function. *)
Lemma early_stop_flag_is_local :
  scope_of execute_local_plan_names "early_stop_flag" = LocalName
  /\ scope_of execute_local_plan_names "stop_info" = LocalName.
Proof. split; reflexivity. Qed.

(** So are the variables of a task: they are assigned at lines 307-319. *)
Lemma task_variables_are_local :
  scope_of execute_local_plan_names "trajectory" = LocalName
  /\ scope_of execute_local_plan_names "state_info" = LocalName
  /\ scope_of execute_local_plan_names "meta_data" = LocalName
  /\ scope_of execute_local_plan_names "global_plan" = LocalName
  /\ scope_of execute_local_plan_names "initial_global_plan" = LocalName
  /\ scope_of execute_local_plan_names "phase_num" = LocalName
  /\ scope_of execute_local_plan_names "render_helper" = LocalName.
Proof. repeat split. Qed.

(** The names that [execute_local_plan] reads without assigning them are
    bound by [test_plan] or by the module. *)
Lemma free_names_are_bound :
  scope_of execute_local_plan_names "local_agent" = EnclosingName
  /\ scope_of execute_local_plan_names "global_planner" = EnclosingName
  /\ scope_of execute_local_plan_names "process_action" = EnclosingName
  /\ scope_of execute_local_plan_names "execute_local_plan" = EnclosingName
  /\ scope_of execute_local_plan_names "env" = EnclosingName
  /\ scope_of execute_local_plan_names "config_file_list" = EnclosingName
  /\ scope_of execute_local_plan_names "create_stop_action" = GlobalName
  /\ scope_of execute_local_plan_names "early_stop" = GlobalName.
Proof. repeat split. Qed.

(** [process_action] reads three names that nothing in its reach binds. *)
Lemma process_action_unbound_names :
  scope_of process_action_names "trajectory" = NoName
  /\ scope_of process_action_names "PromptAgent" = NoName
  /\ scope_of process_action_names "render_helper" = NoName.
Proof. repeat split. Qed.

(** The methods that the loop calls on the agents and that the classes of
    agent.py do not have. *)
Lemma missing_methods :
  getattr local_agent "check_action"
  = Error (NoAttribute "LocalAgent" "check_action")
  /\ getattr local_agent "check_alignment"
     = Error (NoAttribute "LocalAgent" "check_alignment")
  /\ getattr local_agent "revise_local_plan"
     = Error (NoAttribute "LocalAgent" "revise_local_plan")
  /\ getattr local_agent "request_replan"
     = Error (NoAttribute "LocalAgent" "request_replan")
  /\ getattr local_agent "task_completion_report"
     = Error (NoAttribute "LocalAgent" "task_completion_report")
  /\ getattr global_planner "decide_replan"
     = Error (NoAttribute "GlobalPlanner" "decide_replan")
  /\ getattr global_planner "revise_global_plan"
     = Error (NoAttribute "GlobalPlanner" "revise_global_plan")
  /\ getattr global_planner "overrule_local_plan"
     = Error (NoAttribute "GlobalPlanner" "overrule_local_plan")
  /\ getattr global_planner "collate_result"
     = Error (NoAttribute "GlobalPlanner" "collate_result").
Proof. repeat split. Qed.

(** The two planning methods are there. *)
Lemma planning_methods :
  getattr local_agent "local_plan" = Value tt
  /\ getattr global_planner "global_plan" = Value tt.
Proof. split; reflexivity. Qed.

End ScopeFacts.

Section LoopFacts.
Import BrowserEnv EarlyStop TestPlan.

Variable get_action_description : LoopAction -> StateInfo -> string.
Variable lines_263_360 : Frame -> string -> outcome TurnEnd.


(** Whatever the locals are at the head of the loop, the turn raises. *)
Lemma turn_raises (fr : Frame) :
  exists e,
    turn get_action_description lines_263_360 fr = Error e
    /\ raised_before_line_263 e.
Proof.
  destruct fr as [lp cur n flag info a s m t g p d].
  unfold turn, choose_action, raised_before_line_263.
  cbn [early_stop_flag stop_info local_plan action_num read_local and_then].
  destruct flag as [[|]|]; cbn [read_local and_then].
  - destruct info as [info|]; cbn [read_local and_then].
    + eexists; split; [reflexivity|]. auto.
    + eexists; split; [reflexivity|]. auto.
  - destruct (nth_error lp n) as [entry|].
    + cbn [and_then set_action set_action_num action state_info meta_data
           read_local].
      destruct s as [s|]; cbn [read_local and_then].
      * destruct m as [m|]; cbn [read_local and_then].
        -- eexists; split; [reflexivity|]. auto 7.
        -- eexists; split; [reflexivity|]. auto 7.
      * eexists; split; [reflexivity|]. auto 7.
    + eexists; split; [reflexivity|]. auto.
  - eexists; split; [reflexivity|]. auto.
Qed.

(** On the locals of a fresh call the turn stops at line 249. *)
Lemma first_turn_raises (lp : LocalPlan) (cur : PhaseTask) :
  turn get_action_description lines_263_360 (entry_frame lp cur)
  = Error (UnboundLocal "early_stop_flag").
Proof. reflexivity. Qed.

Lemma loop_raises (fuel : nat) (fr : Frame) :
  exists e,
    loop get_action_description lines_263_360 (S fuel) fr = Some (Error e)
    /\ raised_before_line_263 e.
Proof.
  destruct (turn_raises fr) as [e [He Hr]].
  exists e. split; [|exact Hr].
  cbn [loop]. now rewrite He.
Qed.


End LoopFacts.

Section LoopClaims.
Import BrowserEnv EarlyStop TestPlan.





End LoopClaims.

(** * Further properties of the code *)

(** ** The matcher *)

Section MatcherFacts.
Import Re PyText.

Lemma append_nil_r (s : string) : s ++ EmptyString = s.
Proof. induction s; simpl; congruence. Qed.

Lemma append_assoc (a b c : string) : (a ++ b) ++ c = a ++ (b ++ c).
Proof. induction a; simpl; congruence. Qed.

Lemma prefix_refl_app (l r : string) : String.prefix l (l ++ r) = true.
Proof.
  induction l as [|a l IH]; simpl.
  - now destruct r.
  - destruct (ascii_dec a a); [exact IH | congruence].
Qed.

Lemma strip_prefix_app (l s r : string) :
  strip_prefix l s = Some r -> s = l ++ r.
Proof.
  revert s; induction l as [|a l IH]; intros [|b s]; simpl;
    try discriminate; try (intros E; inversion E; reflexivity).
  destruct (Ascii.eqb a b) eqn:Hab; [|discriminate].
  apply Ascii.eqb_eq in Hab. subst b. intros E. now rewrite (IH _ E).
Qed.

Lemma strip_prefix_refl (l r : string) : strip_prefix l (l ++ r) = Some r.
Proof.
  induction l as [|a l IH]; simpl.
  - now destruct r.
  - now rewrite Ascii.eqb_refl.
Qed.

Lemma strip_prefix_none (l s : string) :
  strip_prefix l s = None -> String.prefix l s = false.
Proof.
  revert s; induction l as [|a l IH]; intros [|b s]; simpl;
    try discriminate; auto.
  destruct (ascii_dec a b) as [->|Hne]; auto.
  rewrite Ascii.eqb_refl. apply IH.
Qed.

Lemma occurs_prefix (l s : string) :
  String.prefix l s = true -> PyStr.occurs l s = true.
Proof.
  intros Hp. destruct s as [|c r].
  - change (String.prefix l EmptyString || false = true). now rewrite Hp.
  - change (String.prefix l (String c r) || PyStr.occurs l r = true).
    now rewrite Hp.
Qed.

Lemma occurs_app_r (l a s : string) :
  PyStr.occurs l s = true -> PyStr.occurs l (a ++ s) = true.
Proof.
  intros Hocc. induction a as [|c a IH]; simpl; auto.
  rewrite IH. apply orb_true_r.
Qed.

(** A repetition succeeds by stopping where it is or by taking one more
    character. *)
Lemma rep_match_cases (cls : ascii -> bool) (lo : nat) (greedy cap : bool)
    (k : string -> option matched) (acc : string) (n : nat) (s : string)
    (m : matched) :
  rep_match cls lo greedy cap k acc n s = Some m ->
  (if (lo <=? n)%nat
   then match k s with
        | Some (caps, r) => Some (if cap then acc :: caps else caps, r)
        | None => None
        end
   else None) = Some m
  \/ match s with
     | String c r =>
         if cls c
         then rep_match cls lo greedy cap k
                (acc ++ String c EmptyString) (S n) r
         else None
     | EmptyString => None
     end = Some m.
Proof.
  destruct s as [|c r]; destruct greedy; simpl;
    repeat match goal with
           | |- context [match ?x with Some _ => _ | None => _ end = _] =>
               destruct x as [?|] eqn:?
           | |- context [if ?b then _ else _] => destruct b eqn:?
           end;
    auto; discriminate.
Qed.

(** What a successful repetition has done: it has taken characters of its
    class, at least the required number, the rest of the pattern has
    matched what follows, and the taken text is the group when the
    repetition is one. *)
Lemma rep_match_inv (cls : ascii -> bool) (lo : nat) (greedy cap : bool)
    (k : string -> option matched) :
  forall s acc n caps rest,
    rep_match cls lo greedy cap k acc n s = Some (caps, rest) ->
    exists taken r caps',
      s = taken ++ r
      /\ all_chars cls taken = true
      /\ (lo <= n + String.length taken)%nat
      /\ k r = Some (caps', rest)
      /\ caps = (if cap then (acc ++ taken) :: caps' else caps').
Proof.
  assert (Hstop : forall s acc n caps rest,
             (if (lo <=? n)%nat
              then match k s with
                   | Some (caps, r) =>
                       Some (if cap then acc :: caps else caps, r)
                   | None => None
                   end
              else None) = Some (caps, rest) ->
             exists taken r caps',
               s = taken ++ r
               /\ all_chars cls taken = true
               /\ (lo <= n + String.length taken)%nat
               /\ k r = Some (caps', rest)
               /\ caps = (if cap then (acc ++ taken) :: caps' else caps')).
  { intros s acc n caps rest Hs.
    destruct (Nat.leb_spec lo n) as [Hlo|]; [|discriminate].
    destruct (k s) as [[caps' r']|] eqn:Hk; [|discriminate].
    inversion Hs; subst.
    exists EmptyString, s, caps'. rewrite append_nil_r. simpl.
    repeat split; auto. lia. }
  induction s as [|c r IH]; intros acc n caps rest Hrun;
    destruct (rep_match_cases _ _ _ _ _ _ _ _ _ Hrun) as [Hs | Hm];
    try discriminate; try (apply (Hstop _ _ _ _ _ Hs)).
  destruct (cls c) eqn:Hc; [|discriminate].
  destruct (IH _ _ _ _ Hm) as (taken & r0 & caps' & -> & Hall & Hlo & Hk & ->).
  exists (String c taken), r0, caps'. simpl. rewrite Hc, Hall.
  repeat split; auto; [lia|].
  now rewrite append_assoc.
Qed.

(** Every literal text of a pattern occurs in a text that the pattern
    matches. *)
Lemma match_here_literals (l : string) (p : pattern) :
  In (Lit l) p ->
  forall s m, match_here p s = Some m -> PyStr.occurs l s = true.
Proof.
  induction p as [|it p IH]; intros Hin s m Hm; [destruct Hin|].
  destruct it as [l0 | cls lo greedy cap]; simpl in Hm.
  - destruct (strip_prefix l0 s) as [r|] eqn:Hs; [|discriminate].
    apply strip_prefix_app in Hs. subst s.
    destruct Hin as [E | Hin].
    + inversion E; subst. apply occurs_prefix, prefix_refl_app.
    + apply occurs_app_r. now apply (IH Hin r m).
  - destruct Hin as [E | Hin]; [discriminate|].
    destruct m as [caps rest].
    destruct (rep_match_inv _ _ _ _ _ _ _ _ _ _ Hm)
      as (taken & r & caps' & -> & _ & _ & Hk & _).
    apply occurs_app_r. now apply (IH Hin r (caps', rest)).
Qed.

Lemma search_here (p : pattern) (s : string) (caps : list string)
    (rest : string) :
  match_here p s = Some (caps, rest) -> search p s = Some caps.
Proof. intros Hm. destruct s; cbn [search]; now rewrite Hm. Qed.

Lemma search_inv (p : pattern) (s : string) (caps : list string) :
  search p s = Some caps ->
  exists pre s' rest, s = pre ++ s' /\ match_here p s' = Some (caps, rest).
Proof.
  induction s as [|c r IH]; simpl.
  - destruct (match_here p EmptyString) as [[caps0 rest]|] eqn:Hm;
      [|discriminate].
    intros E; inversion E; subst. now exists EmptyString, EmptyString, rest.
  - destruct (match_here p (String c r)) as [[caps0 rest]|] eqn:Hm.
    + intros E; inversion E; subst.
      now exists EmptyString, (String c r), rest.
    + intros Hs. destruct (IH Hs) as (pre & s' & rest & -> & Hm').
      now exists (String c pre), s', rest.
Qed.

Lemma finditer_from_inv (p : pattern) (caps : list string) :
  forall s skip,
    In caps (finditer_from skip p s) ->
    exists pre s' rest, s = pre ++ s' /\ match_here p s' = Some (caps, rest).
Proof.
  assert (Hcons : forall c r,
             (exists pre s' rest,
                 r = pre ++ s' /\ match_here p s' = Some (caps, rest)) ->
             exists pre s' rest,
               String c r = pre ++ s' /\ match_here p s' = Some (caps, rest)).
  { intros c r (pre & s' & rest & -> & Hm). now exists (String c pre), s', rest. }
  induction s as [|c r IH]; intros skip Hin.
  - destruct skip; simpl in Hin; [|destruct Hin].
    destruct (match_here p EmptyString) as [[caps0 rest]|] eqn:Hm;
      [|destruct Hin].
    destruct Hin as [E | []]. subst.
    now exists EmptyString, EmptyString, rest.
  - destruct skip as [|skip]; simpl in Hin.
    + destruct (match_here p (String c r)) as [[caps0 rest]|] eqn:Hm.
      * destruct Hin as [E | Hin].
        -- subst. now exists EmptyString, (String c r), rest.
        -- apply Hcons. apply (IH _ Hin).
      * apply Hcons. apply (IH _ Hin).
    + apply Hcons. apply (IH _ Hin).
Qed.

(** A pattern finds nothing in a text that lacks one of its literals. *)
Lemma search_needs_literal (l : string) (p : pattern) (s : string) :
  In (Lit l) p -> PyStr.occurs l s = false -> search p s = None.
Proof.
  intros Hin Hocc. destruct (search p s) as [caps|] eqn:Hs; [|reflexivity].
  destruct (search_inv _ _ _ Hs) as (pre & s' & rest & -> & Hm).
  pose proof (match_here_literals l p Hin _ _ Hm) as Ho.
  apply (occurs_app_r l pre) in Ho. congruence.
Qed.

(** [search] passes over a part of the text at no position of which the
    first literal of the pattern starts. *)
Lemma search_skip (m : string) (p : pattern) (pre tail : string) :
  absent_before m pre tail = true ->
  search (Lit m :: p) (pre ++ tail) = search (Lit m :: p) tail.
Proof.
  induction pre as [|c pre IH]; intros Habs; [reflexivity|].
  cbn [absent_before] in Habs. apply andb_true_iff in Habs as [Hp Hrest].
  apply negb_true_iff in Hp.
  change ((String c pre) ++ tail) with (String c (pre ++ tail)) in *.
  change (search (Lit m :: p) (String c (pre ++ tail)))
    with (match match_here (Lit m :: p) (String c (pre ++ tail)) with
          | Some (caps, _) => Some caps
          | None => search (Lit m :: p) (pre ++ tail)
          end).
  change (match_here (Lit m :: p) (String c (pre ++ tail)))
    with (match strip_prefix m (String c (pre ++ tail)) with
          | Some r => match_here p r
          | None => None
          end).
  rewrite (strip_prefix_prefix _ _ Hp). now apply IH.
Qed.

(** A greedy run of any characters before the end of the pattern takes
    the whole text. *)
Lemma rep_any_greedy (s : string) :
  forall acc n,
    rep_match any 0 true true (match_here []) acc n s
    = Some ([acc ++ s], EmptyString).
Proof.
  induction s as [|c r IH]; intros acc n; simpl.
  - now rewrite append_nil_r.
  - rewrite IH. now rewrite append_assoc.
Qed.

Lemma rep_lazy_stop (cls : ascii -> bool) (cap : bool)
    (k : string -> option matched) (acc : string) (n : nat) (s : string)
    (caps : list string) (r : string) :
  k s = Some (caps, r) ->
  rep_match cls 0 false cap k acc n s
  = Some (if cap then acc :: caps else caps, r).
Proof. intros Hk. destruct s; simpl; now rewrite Hk. Qed.

Lemma rep_lazy_step (cls : ascii -> bool) (cap : bool)
    (k : string -> option matched) (acc : string) (n : nat) (c : ascii)
    (r : string) :
  k (String c r) = None -> cls c = true ->
  rep_match cls 0 false cap k acc n (String c r)
  = rep_match cls 0 false cap k (acc ++ String c EmptyString) (S n) r.
Proof. intros Hk Hc. simpl. now rewrite Hk, Hc. Qed.

Lemma match_newline (c : ascii) (r : string) :
  match_here [Lit (PyStr.str1 PyStr.newline)] (String c r)
  = if Ascii.eqb PyStr.newline c then Some ([], r) else None.
Proof.
  unfold match_here. cbn [strip_prefix PyStr.str1].
  destruct (Ascii.eqb PyStr.newline c); [now destruct r | reflexivity].
Qed.

(** A lazy run of non-newline characters before a newline takes the text
    up to the first newline. *)
Lemma rep_dot_lazy_line (line rest : string) :
  no_newline line = true ->
  forall acc n,
    rep_match dot 0 false true
      (match_here [Lit (PyStr.str1 PyStr.newline)]) acc n
      (line ++ String PyStr.newline rest)
    = Some ([acc ++ line], rest).
Proof.
  induction line as [|c line IH]; intros Hline acc n.
  - change (EmptyString ++ String PyStr.newline rest)
      with (String PyStr.newline rest).
    rewrite (rep_lazy_stop _ _ _ _ _ _ [] rest).
    + now rewrite append_nil_r.
    + now rewrite match_newline, Ascii.eqb_refl.
  - unfold no_newline in Hline. cbn [all_chars] in Hline.
    apply andb_true_iff in Hline as [Hc Hline].
    change ((String c line) ++ String PyStr.newline rest)
      with (String c (line ++ String PyStr.newline rest)).
    rewrite rep_lazy_step.
    + rewrite (IH Hline). now rewrite append_assoc.
    + rewrite match_newline. unfold dot in Hc.
      apply negb_true_iff in Hc. rewrite Ascii.eqb_sym in Hc.
      now rewrite Hc.
    + exact Hc.
Qed.

End MatcherFacts.

(** ** The parsers, continued *)

Section ParserMoreFacts.
Import Re PyText PromptConstructor Prompts.

Lemma search_tail_marker (m pre rest : string) :
  absent_before m pre (m ++ rest) = true ->
  search (tail_pattern m) (pre ++ m ++ rest) = Some [rest].
Proof.
  intros Habs. unfold tail_pattern. rewrite (search_skip _ _ _ _ Habs).
  assert (Hm : match_here [Lit m; Rep any 0 true true] (m ++ rest)
               = Some ([rest], EmptyString)).
  { cbn [match_here]. rewrite strip_prefix_refl.
    apply (rep_any_greedy rest EmptyString 0). }
  exact (search_here _ _ _ _ Hm).
Qed.

Lemma search_line_marker (m pre line rest : string) :
  absent_before m pre (m ++ line ++ String PyStr.newline rest) = true ->
  no_newline line = true ->
  search (line_pattern m) (pre ++ m ++ line ++ String PyStr.newline rest)
  = Some [line].
Proof.
  intros Habs Hline. unfold line_pattern. rewrite (search_skip _ _ _ _ Habs).
  assert (Hm : match_here
                 [Lit m; Rep dot 0 false true; Lit (PyStr.str1 PyStr.newline)]
                 (m ++ line ++ String PyStr.newline rest)
               = Some ([line], rest)).
  { cbn [match_here]. rewrite strip_prefix_refl.
    apply (rep_dot_lazy_line line rest Hline EmptyString 0). }
  exact (search_here _ _ _ _ Hm).
Qed.

(** X1.  The Reasons field is all that follows the first occurrence of the
    marker, to the end of the response and over the line ends, without
    the white space around it; so it is for each of the four parsers that
    read it. *)
Theorem reasons_is_text_after_first_marker (pre rest : string) :
  absent_before "Reasons: " pre ("Reasons: " ++ rest) = true ->
  let response := pre ++ "Reasons: " ++ rest in
  Decision_Reasons (parse_decide_result response) = Some (PyStr.strip rest)
  /\ Check_Reasons (parse_check_result response) = Some (PyStr.strip rest)
  /\ Request_Reasons (parse_request_result response)
     = Some (PyStr.strip rest)
  /\ AR_Reasons (_extract_action_and_reasons response)
     = Some (PyStr.strip rest).
Proof.
  intros Habs response.
  pose proof (search_tail_marker _ _ _ Habs) as Hs. fold response in Hs.
  unfold parse_decide_result, parse_check_result, parse_request_result,
    _extract_action_and_reasons, reasons_pattern.
  cbn [Decision_Reasons Check_Reasons Request_Reasons AR_Reasons].
  rewrite Hs. repeat split.
Qed.

Lemma reasons_is_text_after_first_marker_witness :
  let pre := "Decision: replan" ++ nl in
  let rest := " the page " ++ nl ++ "did not load  " in
  absent_before "Reasons: " pre ("Reasons: " ++ rest) = true
  /\ Decision_Reasons (parse_decide_result (pre ++ "Reasons: " ++ rest))
     = Some ("the page " ++ nl ++ "did not load").
Proof.
  cbv zeta. split; [reflexivity|].
  exact (proj1 (reasons_is_text_after_first_marker
                  ("Decision: replan" ++ nl)
                  (" the page " ++ nl ++ "did not load  ") eq_refl)).
Defined.

(** X2.  The Decision, Result and Request Type fields are the rest of the line
    after the first occurrence of their marker, stripped and lowered; the
    Action field of [_extract_action_and_reasons] is that rest of line as
    it stands. *)
Theorem line_field_is_rest_of_line (pre line rest : string) :
  no_newline line = true ->
  (absent_before "Decision: " pre
     ("Decision: " ++ line ++ String PyStr.newline rest) = true ->
   Decision (parse_decide_result
               (pre ++ "Decision: " ++ line ++ String PyStr.newline rest))
   = Some (PyStr.lower (PyStr.strip line)))
  /\ (absent_before "Result: " pre
        ("Result: " ++ line ++ String PyStr.newline rest) = true ->
      Result (parse_check_result
                (pre ++ "Result: " ++ line ++ String PyStr.newline rest))
      = Some (PyStr.lower (PyStr.strip line)))
  /\ (absent_before "Request Type: " pre
        ("Request Type: " ++ line ++ String PyStr.newline rest) = true ->
      Request_Type (parse_request_result
                      (pre ++ "Request Type: " ++ line
                           ++ String PyStr.newline rest))
      = Some (PyStr.lower (PyStr.strip line)))
  /\ (absent_before "Action: " pre
        ("Action: " ++ line ++ String PyStr.newline rest) = true ->
      AR_Action (_extract_action_and_reasons
                   (pre ++ "Action: " ++ line ++ String PyStr.newline rest))
      = Some line).
Proof.
  intros Hline.
  repeat split; intros Habs;
    pose proof (search_line_marker _ _ _ _ Habs Hline) as Hs;
    unfold parse_decide_result, parse_check_result, parse_request_result,
      _extract_action_and_reasons, decision_pattern, result_pattern;
    cbn [Decision Result Request_Type AR_Action];
    now rewrite Hs.
Qed.

Lemma line_field_is_rest_of_line_witness :
  no_newline "  REPLAN " = true
  /\ Decision (parse_decide_result
                 ("I think. Decision:   REPLAN " ++ nl ++ "Reasons: x"))
     = Some "replan".
Proof.
  split; [reflexivity|].
  exact (proj1 (line_field_is_rest_of_line "I think. " "  REPLAN "
                  "Reasons: x" eq_refl) eq_refl).
Defined.

(** X3.  A response without a line end gives none of the fields that are read
    up to the end of their line, whatever it says, and no plan entry; and
    a response without an empty line gives no subtask. *)
Theorem fields_need_a_line_end (response : string) :
  (PyStr.occurs nl response = false ->
   Decision (parse_decide_result response) = None
   /\ Result (parse_check_result response) = None
   /\ Request_Type (parse_request_result response) = None
   /\ AR_Action (_extract_action_and_reasons response) = None
   /\ parse_local_plan response = [])
  /\ (PyStr.occurs (nl ++ nl) response = false ->
      parse_global_plan response = []).
Proof.
  split.
  - intros Hnl.
    assert (Hline : forall m, search (line_pattern m) response = None).
    { intros m. apply (search_needs_literal nl); [|exact Hnl].
      unfold line_pattern. simpl. auto. }
    assert (Hplan : search action_pattern response = None).
    { apply (search_needs_literal nl); [|exact Hnl].
      unfold action_pattern. simpl. auto 10. }
    unfold parse_decide_result, parse_check_result, parse_request_result,
      _extract_action_and_reasons, decision_pattern, result_pattern,
      parse_local_plan.
    cbn [Decision Result Request_Type AR_Action].
    rewrite !Hline, (finditer_no_match _ _ Hplan). repeat split.
  - intros Hnl. unfold parse_global_plan.
    rewrite finditer_no_match; [reflexivity|].
    apply (search_needs_literal (nl ++ nl)); [|exact Hnl].
    unfold subtask_pattern. simpl. auto 20.
Qed.

Lemma fields_need_a_line_end_witness :
  PyStr.occurs nl "Decision: replan" = false
  /\ Decision (parse_decide_result "Decision: replan") = None.
Proof.
  split; [reflexivity|].
  exact (proj1 (proj1 (fields_need_a_line_end "Decision: replan") eq_refl)).
Defined.

(** X4.  The numbers of the entries of a parsed plan are non-empty texts of
    decimal digits. *)
Theorem plan_numbers_are_digits (text : string) :
  (forall e, In e (parse_local_plan text) ->
             Action_Number e <> EmptyString
             /\ all_chars digit (Action_Number e) = true)
  /\ (forall e, In e (parse_global_plan text) ->
                Subtask_Number e <> EmptyString
                /\ all_chars digit (Subtask_Number e) = true).
Proof.
  assert (Hnum : forall l p s caps rest,
             match_here (Lit l :: Rep digit 1 true true :: p) s
             = Some (caps, rest) ->
             group 1 caps <> EmptyString
             /\ all_chars digit (group 1 caps) = true).
  { intros l p s caps rest Hm. cbn [match_here] in Hm.
    destruct (strip_prefix l s) as [r|]; [|discriminate].
    destruct (rep_match_inv _ _ _ _ _ _ _ _ _ _ Hm)
      as (taken & r0 & caps' & _ & Hall & Hlo & _ & ->).
    unfold group. simpl nth. split; [|exact Hall].
    destruct taken; [simpl in Hlo; lia | discriminate]. }
  split; intros e Hin.
  - unfold parse_local_plan in Hin. apply in_map_iff in Hin as (caps & <- & Hin).
    destruct (finditer_from_inv _ _ _ _ Hin) as (pre & s' & rest & _ & Hm).
    apply (Hnum _ _ _ _ _ Hm).
  - unfold parse_global_plan in Hin.
    apply in_map_iff in Hin as (caps & <- & Hin).
    destruct (finditer_from_inv _ _ _ _ Hin) as (pre & s' & rest & _ & Hm).
    apply (Hnum _ _ _ _ _ Hm).
Qed.

End ParserMoreFacts.

Section ParserMoreRuns.
Import Re PyText PromptConstructor Prompts.

Lemma plan_numbers_are_digits_witness :
  let text := "**Action 12:** click [3]" ++ nl in
  In (mkActionInfo "12" "click [3]") (parse_local_plan text)
  /\ all_chars digit "12" = true.
Proof.
  cbv zeta.
  assert (Hin : In (mkActionInfo "12" "click [3]")
                   (parse_local_plan ("**Action 12:** click [3]" ++ nl)))
    by (left; reflexivity).
  split; [exact Hin|].
  exact (proj2 (proj1 (plan_numbers_are_digits
                         ("**Action 12:** click [3]" ++ nl)) _ Hin)).
Defined.

End ParserMoreRuns.

(** ** The action between the splitters *)

Section ExtractFacts.
Import Re PyText PromptConstructor BrowserEnv Agent.

(** A lazy repetition stops at the first place where the rest of the
    pattern matches. *)
Lemma rep_lazy_minimal (cls : ascii -> bool) (lo : nat) (cap : bool)
    (k : string -> option matched) :
  forall s acc n caps rest,
    rep_match cls lo false cap k acc n s = Some (caps, rest) ->
    exists taken r caps',
      s = taken ++ r
      /\ all_chars cls taken = true
      /\ k r = Some (caps', rest)
      /\ caps = (if cap then (acc ++ taken) :: caps' else caps')
      /\ forall t1 t2,
          taken = t1 ++ t2 -> t2 <> EmptyString ->
          (lo <= n + String.length t1)%nat ->
          k (t2 ++ r) = None.
Proof.
  induction s as [|c r IH]; intros acc n caps rest Hrun.
  - simpl in Hrun.
    destruct (lo <=? n)%nat; [|discriminate].
    destruct (k EmptyString) as [[caps' r']|] eqn:Hk; [|discriminate].
    inversion Hrun; subst.
    exists EmptyString, EmptyString, caps'. rewrite (append_nil_r acc).
    refine (conj eq_refl (conj eq_refl (conj Hk (conj eq_refl _)))).
    intros t1 t2 E Hne _. destruct t1; simpl in E; [congruence|discriminate].
  - cbn [rep_match] in Hrun.
    assert (Hmore :
              (if cls c
               then rep_match cls lo false cap k
                      (acc ++ String c EmptyString) (S n) r
               else None) = Some (caps, rest) ->
              ((lo <= n)%nat -> k (String c r) = None) ->
              exists taken r0 caps',
                String c r = taken ++ r0
                /\ all_chars cls taken = true
                /\ k r0 = Some (caps', rest)
                /\ caps = (if cap then (acc ++ taken) :: caps' else caps')
                /\ forall t1 t2,
                    taken = t1 ++ t2 -> t2 <> EmptyString ->
                    (lo <= n + String.length t1)%nat ->
                    k (t2 ++ r0) = None).
    { intros Hm Hfirst.
      destruct (cls c) eqn:Hc; [|discriminate].
      destruct (IH _ _ _ _ Hm)
        as (taken & r0 & caps' & -> & Hall & Hk' & -> & Hmin).
      exists (String c taken), r0, caps'. cbn [all_chars].
      rewrite Hc, Hall, append_assoc.
      refine (conj eq_refl (conj eq_refl (conj Hk' (conj eq_refl _)))).
      intros t1 t2 E Hne Hle. destruct t1 as [|d t1]; simpl in E.
      - subst t2. apply Hfirst. simpl in Hle. lia.
      - inversion E; subst. apply (Hmin t1 t2 eq_refl Hne).
        simpl in Hle. lia. }
    destruct (Nat.leb_spec lo n) as [Hlo|Hlo].
    + destruct (k (String c r)) as [[caps' r']|] eqn:Hk.
      * inversion Hrun; subst.
        exists EmptyString, (String c r), caps'. rewrite (append_nil_r acc).
        refine (conj eq_refl (conj eq_refl (conj Hk (conj eq_refl _)))).
        intros t1 t2 E Hne _.
        destruct t1; simpl in E; [congruence|discriminate].
      * apply (Hmore Hrun). intros _. reflexivity.
    + apply (Hmore Hrun). intros Hle. lia.
Qed.

Lemma occurs_inv (l s : string) :
  PyStr.occurs l s = true ->
  exists t1 t2, s = t1 ++ t2 /\ String.prefix l t2 = true.
Proof.
  induction s as [|c r IH]; intros Ho.
  - change (String.prefix l EmptyString || false = true) in Ho.
    rewrite orb_false_r in Ho. now exists EmptyString, EmptyString.
  - change (String.prefix l (String c r) || PyStr.occurs l r = true) in Ho.
    apply orb_true_iff in Ho as [Hp | Hr].
    + now exists EmptyString, (String c r).
    + destruct (IH Hr) as (t1 & t2 & -> & Hp).
      now exists (String c t1), t2.
Qed.

Lemma prefix_app_r (l s r : string) :
  String.prefix l s = true -> String.prefix l (s ++ r) = true.
Proof.
  revert s; induction l as [|a l IH]; intros [|b s]; simpl;
    try discriminate; auto.
  - now destruct r.
  - destruct (ascii_dec a b); [apply IH | discriminate].
Qed.

(** X5.  The action that [_extract_action] returns lies on one line and, for a
    non-empty splitter, holds no splitter: it is the text between the first
    splitter that is closed on its line and the next splitter. *)
Theorem extracted_action_has_no_splitter (self : PromptConstructor.t)
    (response action : string) :
  _extract_action self response = Ok action ->
  no_newline action = true
  /\ (action_splitter self <> EmptyString ->
      PyStr.occurs (action_splitter self) action = false)
  /\ PyStr.occurs (action_splitter self ++ action ++ action_splitter self)
                  response = true.
Proof.
  unfold _extract_action, action_pattern_of.
  set (sp := action_splitter self).
  destruct (search _ response) as [caps|] eqn:Hs; [|discriminate].
  intros E; inversion E; subst action; clear E.
  destruct (search_inv _ _ _ Hs) as (pre & s' & rest & -> & Hm).
  cbn [match_here] in Hm.
  destruct (strip_prefix sp s') as [r1|] eqn:Hsp; [|discriminate].
  apply strip_prefix_app in Hsp. subst s'.
  destruct (rep_lazy_minimal _ _ _ _ _ _ _ _ _ Hm)
    as (taken & r & caps' & -> & Hall & Hk & -> & Hmin).
  destruct (strip_prefix sp r) as [r2|] eqn:Hsp2; [|discriminate].
  inversion Hk; subst. apply strip_prefix_app in Hsp2. subst r.
  unfold group. simpl nth. repeat split.
  - exact Hall.
  - intros Hne. destruct (PyStr.occurs sp taken) eqn:Ho; [|reflexivity].
    destruct (occurs_inv _ _ Ho) as (t1 & t2 & -> & Hp).
    assert (Ht2 : t2 <> EmptyString).
    { intros ->. destruct sp; [congruence | discriminate]. }
    specialize (Hmin t1 t2 eq_refl Ht2 (Nat.le_0_l _)).
    destruct (strip_prefix sp (t2 ++ sp ++ rest)) eqn:Hst; [discriminate|].
    apply strip_prefix_none in Hst.
    rewrite (prefix_app_r _ _ _ Hp) in Hst. discriminate.
  - apply occurs_app_r. apply occurs_prefix.
    rewrite <- !append_assoc. apply prefix_refl_app.
Qed.

Lemma extracted_action_has_no_splitter_witness :
  let response := "First ```a" ++ Prompts.nl ++ "b``` then ```click [4]``` or ```stop```" in
  _extract_action (mk "```" []) response = Ok " then "
  /\ PyStr.occurs "```" " then " = false.
Proof.
  cbv zeta.
  assert (Hex : _extract_action (mk "```" [])
                  ("First ```a" ++ Prompts.nl
                   ++ "b``` then ```click [4]``` or ```stop```")
                = Ok " then ") by reflexivity.
  split; [exact Hex|].
  apply (proj1 (proj2 (extracted_action_has_no_splitter _ _ _ Hex))).
  discriminate.
Defined.

(** X6.  Whatever [next_action] returns carries the text it was given in
    [raw_prediction], and a parse error never leaves it. *)
Theorem next_action_keeps_raw_text `{Actions} (self : LocalAgent)
    (text : string) :
  (forall action, next_action self text = Ok action ->
                  raw_prediction action = text)
  /\ next_action self text <> Raise ActionParsingError.
Proof.
  unfold next_action.
  destruct (extract_action (prompt_constructor self) text) as [parsed|e];
    cbn [bind].
  - destruct (if String.eqb (action_set_tag self) "id_accessibility_tree"
              then create_id_based_action parsed
              else if String.eqb (action_set_tag self) "playwright"
                   then create_playwright_action parsed
                   else Raise ValueError) as [a|e]; cbn [bind].
    + split; [|discriminate]. intros action E. now inversion E.
    + destruct e; split; try discriminate; intros action E; now inversion E.
  - destruct e; split; try discriminate; intros action E; now inversion E.
Qed.

End ExtractFacts.

Section NextActionRuns.
Import BrowserEnv Agent Samples.

Lemma next_action_keeps_raw_text_witness :
  let text := "I will ```click [42]``` now" in
  next_action id_agent text = Ok (set_raw_prediction (click "42") text)
  /\ raw_prediction (set_raw_prediction (click "42") text) = text.
Proof.
  cbv zeta.
  assert (Hrun : next_action id_agent "I will ```click [42]``` now"
                 = Ok (set_raw_prediction (click "42")
                         "I will ```click [42]``` now")) by reflexivity.
  split; [exact Hrun|].
  exact (proj1 (next_action_keeps_raw_text id_agent
                  "I will ```click [42]``` now") _ Hrun).
Defined.

End NextActionRuns.

(** ** The mapping of URLs *)

Section UrlMappingFacts.
Import PromptConstructor Prompts.

Lemma replace_from_absent (old new : string) :
  forall s, PyStr.occurs old s = false -> PyStr.replace_from 0 old new s = s.
Proof.
  induction s as [|c r IH]; intros Hocc; [reflexivity|].
  destruct (occurs_false _ _ Hocc) as [Hp Hr].
  cbn [PyStr.replace_from]. rewrite Hp. now rewrite (IH Hr).
Qed.

Lemma replace_from_skip (old new : string) :
  forall a s,
    PyStr.replace_from (String.length a) old new (a ++ s)
    = PyStr.replace_from 0 old new s.
Proof.
  induction a as [|c a IH]; intros s; [reflexivity|].
  simpl String.length. cbn [PyStr.replace_from append]. apply IH.
Qed.

(** Replacing a leading occurrence. *)
Lemma replace_leading (old new s : string) (c : ascii) (old' : string) :
  old = String c old' ->
  PyStr.replace (old ++ s) old new = new ++ PyStr.replace s old new.
Proof.
  intros ->. unfold PyStr.replace.
  change ((String c old') ++ s) with (String c (old' ++ s)).
  cbn [PyStr.replace_from].
  change (String c (old' ++ s)) with ((String c old') ++ s).
  rewrite prefix_refl_app.
  replace (String.length (String c old') - 1)%nat with (String.length old')
    by (simpl; lia).
  now rewrite replace_from_skip.
Qed.

(** X7.  A URL that mentions none of the real sites is left as it is by
    [map_url_to_local], and one that mentions none of the local sites by
    [map_url_to_real]. *)
Theorem map_url_leaves_other_urls (self : PromptConstructor.t)
    (url : string) :
  ((forall i j, In (i, j) (URL_MAPPINGS self) -> PyStr.occurs j url = false)
   -> map_url_to_local self url = url)
  /\ ((forall i j, In (i, j) (URL_MAPPINGS self) -> PyStr.occurs i url = false)
      -> map_url_to_real self url = url).
Proof.
  unfold map_url_to_local, map_url_to_real.
  split; intros Hnone; induction (URL_MAPPINGS self) as [|[i j] l IH];
    simpl; auto.
  - rewrite (Hnone i j (or_introl eq_refl)).
    apply IH. intros i' j' Hin. apply (Hnone i' j'). now right.
  - rewrite (Hnone i j (or_introl eq_refl)).
    apply IH. intros i' j' Hin. apply (Hnone i' j'). now right.
Qed.

(** X8.  With one site in the table, a local URL of that site is mapped to the
    real site and back to itself, provided the rest of the URL mentions
    neither name of the site. *)
Theorem map_url_round_trip (action_splitter i j path : string) :
  i <> EmptyString -> j <> EmptyString ->
  PyStr.occurs i path = false -> PyStr.occurs j path = false ->
  let self := PromptConstructor.mk action_splitter [(i, j)] in
  map_url_to_real self (i ++ path) = j ++ path
  /\ map_url_to_local self (map_url_to_real self (i ++ path)) = i ++ path.
Proof.
  intros Hi Hj Hip Hjp self.
  assert (Hreal : map_url_to_real self (i ++ path) = j ++ path).
  { unfold map_url_to_real. simpl.
    rewrite (occurs_prefix _ _ (prefix_refl_app i path)).
    destruct i as [|c i']; [congruence|].
    rewrite (replace_leading _ _ _ c i' eq_refl).
    unfold PyStr.replace. now rewrite replace_from_absent. }
  split; [exact Hreal|]. rewrite Hreal.
  unfold map_url_to_local. simpl.
  rewrite (occurs_prefix _ _ (prefix_refl_app j path)).
  destruct j as [|c j']; [congruence|].
  rewrite (replace_leading _ _ _ c j' eq_refl).
  unfold PyStr.replace. now rewrite replace_from_absent.
Qed.

Lemma map_url_round_trip_witness :
  let self := PromptConstructor.mk "```"
                [("http://localhost:7770", "http://onestopmarket.com")] in
  PyStr.occurs "http://onestopmarket.com" "/office.html" = false
  /\ map_url_to_local self
       (map_url_to_real self "http://localhost:7770/office.html")
     = "http://localhost:7770/office.html".
Proof.
  cbv zeta. split; [reflexivity|].
  refine (proj2 (map_url_round_trip "```" "http://localhost:7770"
                   "http://onestopmarket.com" "/office.html" _ _ _ _));
    (discriminate || reflexivity).
Defined.

Lemma map_url_leaves_other_urls_witness :
  map_url_to_local
    (PromptConstructor.mk "```"
       [("http://localhost:7770", "http://onestopmarket.com")])
    "http://example.org/a" = "http://example.org/a".
Proof.
  apply (proj1 (map_url_leaves_other_urls _ _)).
  intros i j [E | []]. inversion E; subst. reflexivity.
Defined.

End UrlMappingFacts.

(** ** The input of the language model *)

Section ApiInputFacts.
Import Prompts.

Lemma example_messages_length (examples : list (string * string)) :
  List.length (example_messages examples) = (2 * List.length examples)%nat.
Proof.
  unfold example_messages.
  induction examples as [|[x y] l IH]; simpl; [reflexivity|]. lia.
Qed.

Lemma example_messages_system (examples : list (string * string)) :
  Forall (fun m => role m = "system") (example_messages examples).
Proof.
  unfold example_messages.
  induction examples as [|[x y] l IH]; simpl; repeat constructor. exact IH.
Qed.

Lemma filter_none {A : Type} (f : A -> bool) (l : list A) :
  Forall (fun x => f x = false) l -> filter f l = [].
Proof.
  induction 1 as [|x l Hx _ IH]; simpl; [reflexivity|]. now rewrite Hx.
Qed.

(** X9.  In chat mode with an OpenAI provider the input is a list of
    [2 * len(examples) + 2] messages: the introduction as a system
    message, two system messages for each example, and the current
    observation last; that last message is the only one whose role is
    user.  With another mode than chat or completion the call raises a
    ValueError, and with another provider a NotImplementedError. *)
Theorem chat_input_has_one_user_message (lm_config : LMConfig)
    (intro : string) (examples : list (string * string)) (current : string) :
  (PyStr.occurs "openai" (provider lm_config) = true ->
   mode lm_config = "chat" ->
   exists message,
     get_lm_api_input lm_config intro examples current = APIOk (Chat message)
     /\ List.length message = (2 * List.length examples + 2)%nat
     /\ hd_error message = Some (mkMessage "system" None intro)
     /\ last message (mkMessage "system" None intro)
        = mkMessage "user" None current
     /\ filter (fun m => String.eqb (role m) "user") message
        = [mkMessage "user" None current])
  /\ (PyStr.occurs "openai" (provider lm_config) = true ->
      mode lm_config <> "chat" -> mode lm_config <> "completion" ->
      get_lm_api_input lm_config intro examples current = APIValueError)
  /\ (PyStr.occurs "openai" (provider lm_config) = false ->
      get_lm_api_input lm_config intro examples current
      = APINotImplementedError).
Proof.
  unfold get_lm_api_input. split; [|split].
  - intros Hp Hm. rewrite Hp, Hm. cbn [String.eqb].
    change (String.eqb "chat" "chat") with true. cbv iota.
    eexists. split; [reflexivity|]. split; [|split; [|split]].
    + rewrite !List.length_app, example_messages_length. simpl. lia.
    + reflexivity.
    + rewrite app_assoc. apply last_last.
    + cbn [app filter role String.eqb].
      change (String.eqb "system" "user") with false. cbv iota.
      rewrite filter_app. rewrite filter_none.
      * reflexivity.
      * eapply Forall_impl; [|apply example_messages_system].
        intros m Hm'. now rewrite Hm'.
  - intros Hp Hc Hk. rewrite Hp.
    apply String.eqb_neq in Hc, Hk. now rewrite Hc, Hk.
  - intros Hp. now rewrite Hp.
Qed.

Lemma chat_input_has_one_user_message_witness :
  let cfg := mkLMConfig "openai" "chat" in
  exists message,
    get_lm_api_input cfg "intro" [("obs", "act")] "now" = APIOk (Chat message)
    /\ List.length message = 4%nat.
Proof.
  cbv zeta.
  destruct (proj1 (chat_input_has_one_user_message
                     (mkLMConfig "openai" "chat") "intro" [("obs", "act")]
                     "now") eq_refl eq_refl)
    as (message & Hrun & Hlen & _).
  exists message. split; [exact Hrun | exact Hlen].
Defined.

End ApiInputFacts.

(** ** The evaluators, continued *)

Section EvaluatorMoreFacts.
Import BrowserEnv Evaluators.

(** X10.  [exact_match] is reflexive, symmetric and transitive. *)
Theorem exact_match_is_an_equivalence (a b c : string) :
  exact_match a a = 1%Q
  /\ exact_match a b = exact_match b a
  /\ (exact_match a b = 1%Q -> exact_match b c = 1%Q ->
      exact_match a c = 1%Q).
Proof.
  unfold exact_match. split; [|split].
  - now rewrite String.eqb_refl.
  - now rewrite String.eqb_sym.
  - rewrite !float_of_bool_one, !String.eqb_eq. congruence.
Qed.

Lemma exact_match_is_an_equivalence_witness :
  exact_match "'Yes'" "yes" = 1%Q /\ exact_match "yes" "YES" = 1%Q
  /\ exact_match "'Yes'" "YES" = 1%Q.
Proof.
  split; [reflexivity|]. split; [reflexivity|].
  exact (proj2 (proj2 (exact_match_is_an_equivalence "'Yes'" "yes" "YES"))
           eq_refl eq_refl).
Defined.

Context `{Judges}.

Lemma string_loop_unknown (cfg : Config) (pred : string)
    (items : list (string * RefValue)) (score : Q) :
  Forall (fun item : string * RefValue =>
            fst item <> "exact_match" /\ fst item <> "must_include"
            /\ fst item <> "fuzzy_match") items ->
  string_loop cfg pred items score = Ok score.
Proof.
  induction 1 as [|[approach value] items (He & Hm & Hf) _ IH]; simpl;
    [reflexivity|].
  simpl in He, Hm, Hf. apply String.eqb_neq in He, Hm, Hf.
  now rewrite He, Hm, Hf.
Qed.

(** X11.  A configuration none of whose reference keys is exact_match,
    must_include or fuzzy_match scores 1.0 on every answer: the entries
    with other keys are passed over. *)
Theorem unknown_approaches_score_one (trajectory : Trajectory) (a : Action)
    (cfg : Config) :
  Forall (fun item : string * RefValue =>
            fst item <> "exact_match" /\ fst item <> "must_include"
            /\ fst item <> "fuzzy_match") (reference_answers cfg) ->
  StringEvaluator_call (trajectory ++ [Ac a])%list cfg = Ok 1%Q.
Proof.
  intros Hunknown. unfold StringEvaluator_call.
  rewrite get_last_action_snoc. cbn [bind get_answer].
  now apply string_loop_unknown.
Qed.

(** X12.  The string evaluator cleans the answer before it hands it to
    [exact_match], which cleans it again: the score of a single
    exact_match reference is 1.0 exactly when the answer cleaned twice is
    the reference cleaned once. *)
Theorem string_evaluator_cleans_twice (trajectory : Trajectory) (a : Action)
    (intent v : string) :
  exists score,
    StringEvaluator_call (trajectory ++ [Ac a])%list
      (mkConfig intent [("exact_match", RStr v)]) = Ok score
    /\ ((score == 1)%Q
        <-> clean_answer (clean_answer (answer a)) = clean_answer v)
    /\ ((score == 0)%Q
        <-> clean_answer (clean_answer (answer a)) <> clean_answer v).
Proof.
  unfold StringEvaluator_call. rewrite get_last_action_snoc.
  cbn [bind get_answer reference_answers string_loop string_step String.eqb].
  change (String.eqb "exact_match" "exact_match") with true. cbv iota.
  eexists. split; [reflexivity|].
  unfold exact_match.
  destruct (String.eqb (clean_answer (clean_answer (answer a)))
                       (clean_answer v)) eqn:E.
  - apply String.eqb_eq in E. split; split; intros; try reflexivity; auto.
    + discriminate.
    + congruence.
  - apply String.eqb_neq in E. split; split; intros; try reflexivity; auto.
    + discriminate.
    + congruence.
Qed.

End EvaluatorMoreFacts.

Section EvaluatorMoreRuns.
Import BrowserEnv Evaluators Samples.

(** A reference in two layers of quotes is not matched by the answer that
    repeats it to the letter. *)
Example doubly_quoted_answer_fails :
  let v := String PyStr.dquote ("'N/A'" ++ PyStr.str1 PyStr.dquote) in
  exact_match v v = 1%Q
  /\ string_evaluator [St s0; Ac (create_stop_action v)]
       (mkConfig "intent" [("exact_match", RStr v)]) = Ok 0%Q.
Proof. split; reflexivity. Qed.

Lemma unknown_approaches_score_one_witness :
  string_evaluator ([St s0] ++ [Ac (create_stop_action "wrong")])%list
    (mkConfig "intent" [("exact", RStr "right")]) = Ok 1%Q.
Proof.
  apply (@unknown_approaches_score_one sample_judges).
  constructor; [|constructor].
  repeat split; discriminate.
Defined.

End EvaluatorMoreRuns.

(** ** The URL evaluator and the router *)

Section UrlEvaluatorFacts.
Import Evaluators UrlEvaluator PyText.

Lemma occurs_refl (s : string) : PyStr.occurs s s = true.
Proof.
  apply occurs_prefix. rewrite <- (append_nil_r s) at 2.
  apply prefix_refl_app.
Qed.

Lemma endswith_str1_snoc (a : string) (c : ascii) :
  PyStr.endswith (a ++ PyStr.str1 c) (PyStr.str1 c) = true.
Proof. apply endswith_app_char. Qed.

(** One trailing slash is removed, whatever comes before it. *)
Lemma clean_url_slash (url : string) : clean_url (url ++ "/") = url.
Proof.
  unfold clean_url.
  change "/" with (PyStr.str1 "/"%char).
  now rewrite endswith_str1_snoc, drop_last_app_char.
Qed.

(** X14.  A page URL that matches under the rule EXACT matches under the rule
    GOLD in PRED as well. *)
Theorem url_exact_implies_gold_in_pred (page_url ref : string) :
  URLExactEvaluator_call page_url (mkUrlConfig ref (Some "EXACT")) = Ok 1%Q ->
  URLExactEvaluator_call page_url (mkUrlConfig ref (Some "GOLD in PRED"))
  = Ok 1%Q.
Proof.
  unfold URLExactEvaluator_call. cbn [reference_url url_note].
  change (String.eqb "EXACT" "EXACT") with true.
  change (String.eqb "GOLD in PRED" "EXACT") with false.
  change (String.eqb "GOLD in PRED" "GOLD in PRED") with true.
  cbv iota.
  destruct (str_in_list _ _) eqn:Hin; [|discriminate]. intros _.
  unfold str_in_list in Hin. apply existsb_exists in Hin as (x & Hx & Heq).
  apply String.eqb_eq in Heq. subst x.
  assert (Hex : existsb (fun r => PyStr.occurs r (clean_url page_url))
                        (map clean_url (split ref " |OR| ")) = true).
  { apply existsb_exists. exists (clean_url page_url).
    split; [exact Hx | apply occurs_refl]. }
  now rewrite Hex.
Qed.

(** X15.  The evaluator does not tell a page URL from the same URL with a slash
    at its end; the missing rule is EXACT; an unknown rule raises a
    ValueError whatever the URLs are. *)
Theorem url_evaluator_trailing_slash (page_url : string)
    (configs : UrlConfig) (ref rule : string) :
  (PyStr.endswith page_url "/" = false ->
   URLExactEvaluator_call (page_url ++ "/") configs
   = URLExactEvaluator_call page_url configs)
  /\ URLExactEvaluator_call page_url (mkUrlConfig ref None)
     = URLExactEvaluator_call page_url (mkUrlConfig ref (Some "EXACT"))
  /\ (rule <> "EXACT" -> rule <> "GOLD in PRED" ->
      URLExactEvaluator_call page_url (mkUrlConfig ref (Some rule))
      = Raise ValueError).
Proof.
  split; [|split].
  - intros Hend. unfold URLExactEvaluator_call.
    rewrite clean_url_slash.
    assert (Hclean : clean_url page_url = page_url)
      by (unfold clean_url; now rewrite Hend).
    now rewrite Hclean.
  - reflexivity.
  - intros He Hg. unfold URLExactEvaluator_call. cbn [url_note].
    apply String.eqb_neq in He, Hg. now rewrite He, Hg.
Qed.

Lemma url_exact_implies_gold_in_pred_witness :
  URLExactEvaluator_call "http://a.com/x/"
    (mkUrlConfig "http://b.com |OR| http://a.com/x" (Some "GOLD in PRED"))
  = Ok 1%Q.
Proof.
  apply url_exact_implies_gold_in_pred. reflexivity.
Defined.

Lemma url_evaluator_trailing_slash_witness :
  PyStr.endswith "http://a.com/x" "/" = false
  /\ URLExactEvaluator_call ("http://a.com/x" ++ "/")
       (mkUrlConfig "http://a.com/x" None)
     = URLExactEvaluator_call "http://a.com/x"
         (mkUrlConfig "http://a.com/x" None).
Proof.
  split; [reflexivity|].
  exact (proj1 (url_evaluator_trailing_slash "http://a.com/x"
                  (mkUrlConfig "http://a.com/x" None) EmptyString EmptyString)
           eq_refl).
Defined.

Lemma split_from_absent (sep : string) :
  forall s cur,
    PyStr.occurs sep s = false -> split_from 0 sep cur s = [cur ++ s].
Proof.
  induction s as [|c r IH]; intros cur Hocc.
  - simpl. now rewrite append_nil_r.
  - destruct (occurs_false _ _ Hocc) as [Hp Hr].
    cbn [split_from]. rewrite Hp, (IH _ Hr). now rewrite append_assoc.
Qed.

(** A text without the separator is its own single piece. *)
Lemma split_absent (s sep : string) :
  PyStr.occurs sep s = false -> split s sep = [s].
Proof. intros Hocc. unfold split. now rewrite split_from_absent. Qed.

(** X16.  With a single reference URL the rule EXACT compares the two URLs up to
    one trailing slash on either side. *)
Theorem url_single_reference (page_url ref : string) :
  PyStr.occurs " |OR| " ref = false ->
  URLExactEvaluator_call page_url (mkUrlConfig ref None)
  = Ok (if String.eqb (clean_url page_url) (clean_url ref)
        then 1%Q else 0%Q).
Proof.
  intros Hone. unfold URLExactEvaluator_call. cbn [reference_url url_note].
  rewrite (split_absent _ _ Hone).
  change (String.eqb "EXACT" "EXACT") with true. cbv iota.
  unfold str_in_list. cbn [map existsb]. rewrite orb_false_r.
  now destruct (String.eqb _ _).
Qed.

Lemma url_single_reference_witness :
  PyStr.occurs " |OR| " "http://a.com/x/" = false
  /\ URLExactEvaluator_call "http://a.com/x"
       (mkUrlConfig "http://a.com/x/" None) = Ok 1%Q.
Proof.
  split; [reflexivity|].
  exact (url_single_reference "http://a.com/x" "http://a.com/x/" eq_refl).
Defined.

Lemma mapM_raises {A B : Type} (f : A -> result B) (e : exn) (l : list A)
    (x : A) :
  (forall y err, f y = Raise err -> err = e) ->
  In x l -> f x = Raise e -> mapM f l = Raise e.
Proof.
  intros Honly. induction l as [|y l IH]; intros Hin Hx; [destruct Hin|].
  simpl. destruct (f y) as [b|err] eqn:Hy.
  - destruct Hin as [-> | Hin]; [congruence|].
    cbn [bind]. now rewrite (IH Hin Hx).
  - cbn [bind]. now rewrite (Honly _ _ Hy).
Qed.

Lemma mapM_length {A B : Type} (f : A -> result B) (l : list A)
    (r : list B) :
  mapM f l = Ok r -> List.length r = List.length l.
Proof.
  revert r. induction l as [|y l IH]; intros r; simpl.
  - intros E; inversion E; reflexivity.
  - destruct (f y) as [b|]; [|discriminate]. cbn [bind].
    destruct (mapM f l) as [bs|]; [|discriminate]. cbn [bind].
    intros E; inversion E; subst. simpl. now rewrite (IH bs eq_refl).
Qed.

Lemma mapM_all_ok {A B : Type} (f : A -> result B) (l : list A) :
  (forall y, In y l -> exists b, f y = Ok b) ->
  exists r, mapM f l = Ok r.
Proof.
  induction l as [|y l IH]; intros Hall; simpl; [now eexists|].
  destruct (Hall y (or_introl eq_refl)) as [b Hb]. rewrite Hb. cbn [bind].
  destruct IH as [r Hr]; [intros z Hz; apply Hall; now right|].
  rewrite Hr. cbn [bind]. now eexists.
Qed.

(** X17.  The router builds one evaluator for each entry of [eval_types] when
    all entries are supported, and raises a ValueError as soon as one
    entry, wherever it stands, is not. *)
Theorem router_rejects_unknown_types (eval_types : list string) :
  (forallb supported eval_types = true ->
   exists kinds,
     evaluator_router eval_types = Ok kinds
     /\ List.length kinds = List.length eval_types)
  /\ (forall t, In t eval_types -> supported t = false ->
                evaluator_router eval_types = Raise ValueError).
Proof.
  unfold evaluator_router. split.
  - intros Hall.
    destruct (mapM_all_ok
                (fun eval_type =>
                   if String.eqb eval_type "string_match"
                   then Ok KStringEvaluator
                   else if String.eqb eval_type "url_match"
                   then Ok KURLExactEvaluator
                   else if String.eqb eval_type "program_html"
                   then Ok KHTMLContentExactEvaluator
                   else Raise ValueError) eval_types) as [kinds Hk].
    + intros y Hy. rewrite forallb_forall in Hall. specialize (Hall y Hy).
      unfold supported in Hall.
      destruct (String.eqb y "string_match"); [now eexists|].
      destruct (String.eqb y "url_match"); [now eexists|].
      destruct (String.eqb y "program_html"); [now eexists|discriminate].
    + exists kinds. split; [exact Hk|]. apply (mapM_length _ _ _ Hk).
  - intros t Hin Hun. apply (mapM_raises _ _ _ t); auto.
    + intros y err.
      destruct (String.eqb y "string_match"); [discriminate|].
      destruct (String.eqb y "url_match"); [discriminate|].
      destruct (String.eqb y "program_html"); [discriminate|].
      intros E; now inversion E.
    + unfold supported in Hun.
      destruct (String.eqb t "string_match"); [discriminate|].
      destruct (String.eqb t "url_match"); [discriminate|].
      destruct (String.eqb t "program_html"); [discriminate|reflexivity].
Qed.

Lemma router_rejects_unknown_types_witness :
  supported "url_soft" = false
  /\ evaluator_router ["string_match"; "url_soft"; "url_match"]
     = Raise ValueError.
Proof.
  split; [reflexivity|].
  apply (proj2 (router_rejects_unknown_types
                  ["string_match"; "url_soft"; "url_match"]) "url_soft").
  - right. left. reflexivity.
  - reflexivity.
Defined.

End UrlEvaluatorFacts.

(** ** The tasks left to run *)

Section UnfinishedFacts.
Import PyText Unfinished.

Lemma filter_all {A : Type} (f : A -> bool) (l : list A) :
  (forall x, In x l -> f x = true) -> filter f l = l.
Proof.
  induction l as [|x l IH]; intros Hall; simpl; [reflexivity|].
  rewrite (Hall x (or_introl eq_refl)). f_equal.
  apply IH. intros y Hy. apply Hall. now right.
Qed.

(** X18.  Without result files every configuration is left to run; the
    configurations left are always among those given, and giving them
    again changes nothing; and a result file whose name has no underscore
    before its first dot makes the call fail with an IndexError. *)
Theorem get_unfinished_filters (config_files result_files : list string) :
  get_unfinished config_files [] = Ok config_files
  /\ (forall left,
         get_unfinished config_files result_files = Ok left ->
         incl left config_files
         /\ get_unfinished left result_files = Ok left)
  /\ (forall f, In f result_files -> PyStr.occurs "_" (stem f) = false ->
                get_unfinished config_files result_files = Raise IndexError).
Proof.
  unfold get_unfinished. split; [|split].
  - cbn [mapM bind]. f_equal. apply filter_all. reflexivity.
  - intros left.
    destruct (mapM _ result_files) as [task_ids|]; [|discriminate].
    cbn [bind]. intros E; inversion E; subst. split.
    + intros x Hx. now apply filter_In in Hx.
    + f_equal. apply filter_all. intros x Hx.
      now apply filter_In in Hx.
  - intros f Hin Hno.
    rewrite (mapM_raises _ IndexError _ f); auto.
    + intros y err. unfold index.
      destruct (nth_error _ 1); [discriminate|]. intros E; now inversion E.
    + now rewrite (split_absent _ _ Hno).
Qed.

Lemma get_unfinished_filters_witness :
  get_unfinished ["config_files/7.json"; "config_files/8.json"]
                 ["results/render_7.html"] = Ok ["config_files/8.json"]
  /\ incl ["config_files/8.json"]
          ["config_files/7.json"; "config_files/8.json"]
  /\ get_unfinished ["config_files/7.json"] ["results/render7.html"]
     = Raise IndexError.
Proof.
  assert (Hrun : get_unfinished
                   ["config_files/7.json"; "config_files/8.json"]
                   ["results/render_7.html"] = Ok ["config_files/8.json"])
    by reflexivity.
  split; [exact Hrun|]. split.
  - exact (proj1 (proj1 (proj2 (get_unfinished_filters _ _)) _ Hrun)).
  - apply (proj2 (proj2 (get_unfinished_filters
                           ["config_files/7.json"]
                           ["results/render7.html"]))
             "results/render7.html").
    + left. reflexivity.
    + reflexivity.
Defined.

End UnfinishedFacts.

(** ** The early-stop monitor, continued *)

Section EarlyStopMoreFacts.
Import BrowserEnv EarlyStop.
Context `{Actions}.

(** X19.  Before the first action the monitor lets the task go on when the
    parse-failure threshold is at least 1, and stops it with the
    parse-failure reason when that threshold is 0 or negative: the empty
    list of actions passes the test on the last actions. *)
Theorem early_stop_before_first_action (trajectory : Trajectory)
    (max_steps : Z) (th : Thresholds) :
  (num_steps trajectory < inject_Z max_steps)%Q ->
  slice_1_2 trajectory = [] ->
  early_stop trajectory max_steps th
  = Ok (if (1 <=? parsing_failure th)%Z
        then (false, EmptyString)
        else (true,
              "Failed to parse actions for "
              ++ PyStr.str_of_int (parsing_failure th) ++ " times")).
Proof.
  intros Hlt Hacts.
  rewrite (early_stop_on_actions trajectory max_steps th [] Hlt Hacts).
  cbv zeta. unfold slice_last. rewrite !skipn_nil, Tauto.if_same.
  unfold len. simpl List.length. simpl forallb. rewrite andb_true_r.
  destruct (Z.leb_spec 1 (parsing_failure th));
    destruct (Z.leb_spec (parsing_failure th) (Z.of_nat 0)); try lia;
    reflexivity.
Qed.

(** X20.  A state at an odd index among the elements that the parse-failure
    rule inspects makes the monitor fail with a KeyError. *)
Theorem early_stop_key_error (trajectory : Trajectory) (max_steps : Z)
    (th : Thresholds) (s : StateInfo) :
  (num_steps trajectory < inject_Z max_steps)%Q ->
  let window := slice_last (parsing_failure th) (slice_1_2 trajectory) in
  (parsing_failure th <= len window)%Z ->
  In (St s) window ->
  early_stop trajectory max_steps th = Raise KeyError.
Proof.
  intros Hlt window Hlen Hin. unfold early_stop.
  rewrite (below_max_steps _ _ Hlt). fold window.
  apply Z.leb_le in Hlen. rewrite Hlen.
  rewrite (mapM_raises get_action_type KeyError window (St s)); auto.
  intros [s'|a] err; simpl; [|discriminate]. intros E; now inversion E.
Qed.

(** X21.  The step rule counts whole steps: it fires exactly when [max_steps]
    is at most the integer quotient of [len(trajectory) - 1] by 2. *)
Theorem step_rule_counts_whole_steps (trajectory : Trajectory)
    (max_steps : Z) (th : Thresholds) :
  (max_steps <= (len trajectory - 1) / 2)%Z
  <-> early_stop trajectory max_steps th
      = Ok (true, "Reach max steps " ++ PyStr.str_of_int max_steps).
Proof.
  assert (Hq : Qle_bool (inject_Z max_steps) (num_steps trajectory)
               = (max_steps <=? (len trajectory - 1) / 2)%Z).
  { unfold Qle_bool, num_steps, inject_Z. simpl.
    destruct (Z.leb_spec (max_steps * 2) ((len trajectory - 1) * 1));
      destruct (Z.leb_spec max_steps ((len trajectory - 1) / 2));
      try reflexivity; exfalso;
      pose proof (Z.div_mod (len trajectory - 1) 2 ltac:(lia));
      pose proof (Z.mod_pos_bound (len trajectory - 1) 2 ltac:(lia)); lia. }
  unfold early_stop. rewrite Hq.
  destruct (Z.leb_spec max_steps ((len trajectory - 1) / 2)) as [Hle|Hgt].
  - split; auto.
  - split; [lia|]. intros E. exfalso.
    repeat match type of E with
           | context [match ?x with _ => _ end] => destruct x
           | context [if ?b then _ else _] => destruct b
           | bind ?r _ = _ => destruct r; cbn [bind] in E
           end;
      try discriminate.
Qed.

End EarlyStopMoreFacts.

Section EarlyStopVerdicts.
Import BrowserEnv EarlyStop.
Context `{Actions}.

(** X22.  Whenever the monitor answers, its reason is empty exactly when it
    lets the task go on. *)
Theorem early_stop_reason_iff_stop (trajectory : Trajectory) (max_steps : Z)
    (th : Thresholds) (stop : bool) (reason : string) :
  early_stop trajectory max_steps th = Ok (stop, reason) ->
  (stop = false <-> reason = EmptyString).
Proof.
  unfold early_stop. intros E.
  repeat match type of E with
         | context [match ?x with _ => _ end] => destruct x
         | context [if ?b then _ else _] => destruct b
         | bind ?r _ = _ => destruct r; cbn [bind] in E
         end;
    try discriminate; inversion E; subst; split; intros; try reflexivity;
    discriminate.
Qed.

(** X23.  With a repetition threshold of 1, a parse-failure threshold of at
    least 1 and an equivalence that holds between an action and itself,
    the monitor stops as soon as the trajectory holds one action. *)
Theorem threshold_one_stops_after_first_action (trajectory : Trajectory)
    (max_steps : Z) (th : Thresholds) (acts : list Action) (a : Action) :
  (forall x, is_equivalent x x = true) ->
  (num_steps trajectory < inject_Z max_steps)%Q ->
  slice_1_2 trajectory = map Ac (acts ++ [a])%list ->
  (1 <= parsing_failure th)%Z ->
  repeating_action th = 1%Z ->
  exists reason,
    early_stop trajectory max_steps th = Ok (true, reason).
Proof.
  intros Hrefl Hlt Hacts Hkp Hkr.
  rewrite (early_stop_on_actions trajectory max_steps th _ Hlt Hacts).
  cbv zeta. destruct (_ && _); [now eexists|].
  unfold repetition_verdict. rewrite last_elem_snoc, Hkr.
  destruct (negb (ActionTypes_eqb (action_type a) TYPE)).
  - rewrite last_k_repeat_slice by lia. unfold last_k_repeat.
    change (Z.to_nat 1) with 1%nat. rewrite lastn_snoc by lia.
    cbn [Nat.sub]. unfold lastn at 1. rewrite Nat.sub_0_r, skipn_all.
    cbn [app forallb]. rewrite Hrefl.
    assert (Hlen : (1 <=? len (acts ++ [a])%list)%Z = true).
    { apply Z.leb_le. unfold len. rewrite List.length_app. simpl. lia. }
    rewrite Hlen. now eexists.
  - assert (Hcount : (1 <=? count_equivalent a (acts ++ [a])%list)%Z = true).
    { apply Z.leb_le. unfold count_equivalent.
      rewrite filter_app, List.length_app. simpl. rewrite Hrefl. simpl. lia. }
    rewrite Hcount. now eexists.
Qed.

Lemma is_equivalent_spec_refl (x : Action) : is_equivalent_spec x x = true.
Proof.
  unfold is_equivalent_spec. rewrite !String.eqb_refl.
  now destruct (action_type x).
Qed.

End EarlyStopVerdicts.

Section EarlyStopMoreRuns.
Import BrowserEnv EarlyStop Samples.

Lemma early_stop_before_first_action_witness :
  (num_steps [St s0] < inject_Z 30)%Q
  /\ early_stop [St s0] 30 (mkThresholds 0 3)
     = Ok (true, "Failed to parse actions for 0 times").
Proof.
  assert (Hlt : (num_steps [St s0] < inject_Z 30)%Q) by reflexivity.
  split; [exact Hlt|].
  exact (early_stop_before_first_action [St s0] 30 (mkThresholds 0 3)
           Hlt eq_refl).
Defined.

Lemma early_stop_key_error_witness :
  let trajectory := [St s0; Ac (click "1"); Ac (click "2"); St s1] in
  In (St s1) (slice_last 1 (slice_1_2 trajectory))
  /\ early_stop trajectory 30 (mkThresholds 1 3) = Raise KeyError.
Proof.
  cbv zeta.
  assert (Hin : In (St s1)
                   (slice_last 1
                      (slice_1_2 [St s0; Ac (click "1"); Ac (click "2");
                                  St s1])))
    by (left; reflexivity).
  split; [exact Hin|].
  refine (early_stop_key_error _ 30 (mkThresholds 1 3) s1 _ _ Hin).
  - reflexivity.
  - vm_compute; discriminate.
Defined.

Lemma step_rule_counts_whole_steps_witness :
  let trajectory := trajectory_of s0 [click "1"; click "2"] in
  (2 <= (len trajectory - 1) / 2)%Z
  /\ early_stop trajectory 2 th33 = Ok (true, "Reach max steps 2").
Proof.
  cbv zeta.
  assert (Hle : (2 <= (len (trajectory_of s0 [click "1"; click "2"]) - 1)
                      / 2)%Z) by (vm_compute; discriminate).
  split; [exact Hle|].
  exact (proj1 (step_rule_counts_whole_steps _ 2 th33) Hle).
Defined.

Lemma early_stop_reason_iff_stop_witness :
  early_stop (trajectory_of s0 [click "1"]) 30 th33 = Ok (false, EmptyString)
  /\ (false = false <-> EmptyString = EmptyString).
Proof.
  assert (Hrun : early_stop (trajectory_of s0 [click "1"]) 30 th33
                 = Ok (false, EmptyString)) by reflexivity.
  split; [exact Hrun|].
  exact (early_stop_reason_iff_stop _ 30 th33 false EmptyString Hrun).
Defined.

Lemma threshold_one_stops_after_first_action_witness :
  exists reason,
    early_stop (trajectory_of s0 [click "1"]) 30 (mkThresholds 3 1)
    = Ok (true, reason).
Proof.
  refine (threshold_one_stops_after_first_action
            (trajectory_of s0 [click "1"]) 30 (mkThresholds 3 1) []
            (click "1") is_equivalent_spec_refl _ eq_refl _ eq_refl).
  - reflexivity.
  - vm_compute; discriminate.
Defined.

End EarlyStopMoreRuns.

(** ** The evaluator on a trajectory without a final action *)

Section EvaluatorWithoutAnAnswer.
Import BrowserEnv Evaluators.
Context `{Judges}.

(** X13.  The string evaluator reads the answer of the last element of the
    trajectory: it raises a ValueError on the empty trajectory and a
    KeyError on a trajectory that ends with a state. *)
Theorem string_evaluator_needs_a_final_action (t : Trajectory)
    (s : StateInfo) (cfg : Config) :
  StringEvaluator_call [] cfg = Raise ValueError
  /\ StringEvaluator_call (t ++ [St s])%list cfg = Raise KeyError.
Proof.
  split; [reflexivity|].
  unfold StringEvaluator_call. now rewrite get_last_action_snoc.
Qed.

End EvaluatorWithoutAnAnswer.
